(** * Trust score of a Hathor token: [DataExtraction/fetch_hathor_nft.py]

    A shallow embedding of the scoring half of [fetch_hathor_nft] (source
    lines 60-116) and of the library calls it makes: string slicing,
    [str.split], [str.strip], [min] over a list of [datetime]s,
    [datetime.today], [strftime] and [dateutil]'s [relativedelta], as
    CPython 3.11 runs them on Linux (glibc).

    The first half of the function (lines 9-58) performs HTTP requests and
    HTML scraping; its outcome is the raw token record that the embedding
    takes as an argument.

    The request handlers of [DataExtraction/simple_server.py] are embedded
    in [Module Server], further down. *)

From Stdlib Require Import ZArith List String Ascii Bool Lia.
From Stdlib Require Import Permutation.
From Stdlib Require DecimalString DecimalZ.
Import ListNotations.
Local Open Scope string_scope.
Local Open Scope Z_scope.

(** ** Python strings *)

Module PyStr.

Definition len (s : string) : Z := Z.of_nat (String.length s).

(** Truth value of a [str]: the empty string is false. *)
Definition truthy (s : string) : bool :=
  match s with EmptyString => false | String _ _ => true end.

(** Index normalisation of a slice with step 1 (CPython's
    [PySlice_AdjustIndices]): a negative index counts from the end, and
    both ends are clipped to [0 .. length]. *)
Definition adjust (length i : Z) : Z :=
  if i <? 0 then
    let i := i + length in
    if i <? 0 then 0 else i
  else if i >=? length then length
  else i.

(** [s[start:stop]], where [None] stands for an omitted bound. *)
Definition slice (s : string) (start stop : option Z) : string :=
  let n := len s in
  let lo := match start with Some i => adjust n i | None => 0 end in
  let hi := match stop with Some i => adjust n i | None => n end in
  if lo <? hi then String.substring (Z.to_nat lo) (Z.to_nat (hi - lo)) s
  else "".

(** [c in s] for a one-character needle. *)
Fixpoint contains (c : ascii) (s : string) : bool :=
  match s with
  | EmptyString => false
  | String a s' => if Ascii.eqb a c then true else contains c s'
  end.

(** [s.split(sep)] for a one-character separator: the fields between
    the occurrences of [sep], at least one field. *)
Fixpoint split (sep : ascii) (s : string) : list string :=
  match s with
  | EmptyString => [""]
  | String a s' =>
      if Ascii.eqb a sep then "" :: split sep s'
      else match split sep s' with
           | f :: fs => String a f :: fs
           | [] => [String a ""]
           end
  end.

(** Whitespace in the sense of [str.isspace], on code points below 256:
    TAB, LF, VT, FF, CR, the separators FS, GS, RS, US, the space, NEL
    and the no-break space. *)
Definition isspace (c : ascii) : bool :=
  let n := Z.of_nat (nat_of_ascii c) in
  ((9 <=? n) && (n <=? 13)) || ((28 <=? n) && (n <=? 32))
  || (n =? 133) || (n =? 160).

Fixpoint lstrip (s : string) : string :=
  match s with
  | EmptyString => ""
  | String a s' => if isspace a then lstrip s' else s
  end.

Fixpoint rstrip (s : string) : string :=
  match s with
  | EmptyString => ""
  | String a s' =>
      match rstrip s' with
      | EmptyString => if isspace a then "" else String a ""
      | t => String a t
      end
  end.

(** [s.strip()] *)
Definition strip (s : string) : string := rstrip (lstrip s).

Definition digit (d : Z) : ascii := ascii_of_nat (48 + Z.to_nat d).

(** The [w] low decimal digits of [n], zero-padded: the [%0wd] of a
    number that fits. *)
Fixpoint zfill (w : nat) (n : Z) : string :=
  match w with
  | O => ""
  | S w' => zfill w' (n / 10) ++ String (digit (n mod 10)) ""
  end.

(** [n] in decimal, as C's [%d] prints it: no padding, a minus sign for a
    negative number. *)
Definition decimal (n : Z) : string :=
  DecimalString.NilEmpty.string_of_int (Z.to_int n).

End PyStr.

(** ** Exceptions and the wall clock *)

Inductive exn : Type :=
| AttributeError   (* a method looked up on [None] *)
| ValueError       (* a date out of [datetime]'s range *)
| OverflowError.   (* an argument that does not fit a C [int] *)

Inductive result (A : Type) : Type :=
| Ok (a : A)
| Raise (e : exn).
Arguments Ok {A} a.
Arguments Raise {A} e.

(** ** [datetime] *)

Record datetime : Type := mkdatetime {
  year : Z;
  month : Z;
  day : Z;
  tod : Z   (* hour, minute, second and microsecond, as microseconds *)
}.

Definition MINYEAR : Z := 1.
Definition MAXYEAR : Z := 9999.

(** [calendar.isleap] *)
Definition isleap (y : Z) : bool :=
  (y mod 4 =? 0) && (negb (y mod 100 =? 0) || (y mod 400 =? 0)).

(** [calendar.mdays] *)
Definition mdays (m : Z) : Z :=
  match m with
  | 1 => 31 | 2 => 28 | 3 => 31 | 4 => 30 | 5 => 31 | 6 => 30
  | 7 => 31 | 8 => 31 | 9 => 30 | 10 => 31 | 11 => 30 | 12 => 31
  | _ => 0
  end.

(** [calendar.monthrange(y, m)[1]]: the number of days of the month. *)
Definition days_in_month (y m : Z) : Z :=
  mdays m + (if (m =? 2) && isleap y then 1 else 0).

(** The values a [datetime] object can hold. *)
Definition valid_datetime (d : datetime) : Prop :=
  MINYEAR <= year d <= MAXYEAR /\ 1 <= month d <= 12
  /\ 1 <= day d <= days_in_month (year d) (month d).

Definition valid_datetimeb (d : datetime) : bool :=
  (MINYEAR <=? year d) && (year d <=? MAXYEAR)
  && (1 <=? month d) && (month d <=? 12)
  && (1 <=? day d) && (day d <=? days_in_month (year d) (month d)).

(** The values of a C [int], which the arguments of [replace] are
    converted to. *)
Definition fits_int (z : Z) : bool := (- 2 ^ 31 <=? z) && (z <? 2 ^ 31).

(** [d.replace(year=y, month=m, day=dd)]: an argument that does not fit a
    C [int] raises [OverflowError]; then the constructor checks the ranges
    and raises [ValueError]. *)
Definition datetime_replace (d : datetime) (y m dd : Z) : result datetime :=
  if negb (fits_int y && fits_int m && fits_int dd) then Raise OverflowError
  else
    let d' := mkdatetime y m dd (tod d) in
    if valid_datetimeb d' then Ok d' else Raise ValueError.

(** [a < b] on [datetime]s: lexicographic on the fields. *)
Definition datetime_ltb (a b : datetime) : bool :=
  (year a <? year b)
  || ((year a =? year b)
      && ((month a <? month b)
          || ((month a =? month b)
              && ((day a <? day b)
                  || ((day a =? day b) && (tod a <? tod b)))))).

Definition datetime_leb (a b : datetime) : bool := negb (datetime_ltb b a).

(** [min(ds)] on a non-empty list: the first of the smallest elements
    (the running minimum is replaced only by a strictly smaller item). *)
Definition py_min (d0 : datetime) (ds : list datetime) : datetime :=
  fold_left (fun m d => if datetime_ltb d m then d else m) ds d0.

(** [d.strftime("%Y-%m")] and [d.strftime("%Y-%m-%d")]: the C library
    prints the year with [%d], so without padding (a year below 1000 has
    fewer than four digits), and the month and the day with [%02d]. *)
Definition format_Ym (y m : Z) : string :=
  PyStr.decimal y ++ "-" ++ PyStr.zfill 2 m.

Definition strftime_Ym (d : datetime) : string :=
  format_Ym (year d) (month d).

Definition strftime_Ymd (d : datetime) : string :=
  strftime_Ym d ++ "-" ++ PyStr.zfill 2 (day d).

(** ** [dateutil.relativedelta] *)

Module relativedelta.

(** [relativedelta(months=n)] after the constructor's [_fix]: whole
    years are carried out of the months, the sign kept. *)
Definition fix_ (n : Z) : Z * Z :=
  if Z.abs n >? 11 then
    let s := if n <? 0 then -1 else 1 in
    let q := (n * s) / 12 in
    let r := (n * s) mod 12 in
    (q * s, r * s)
  else (0, n).

(** [dt + relativedelta(months=n)] *)
Definition add (dt : datetime) (n : Z) : result datetime :=
  let '(years, months) := fix_ n in
  let y := year dt + years in
  let m := month dt in
  let '(y, m) :=
    if months =? 0 then (y, m)
    else
      let m := m + months in
      if m >? 12 then (y + 1, m - 12)
      else if m <? 1 then (y - 1, m + 12)
      else (y, m) in
  let dd := Z.min (days_in_month y m) (day dt) in
  datetime_replace dt y m dd.

End relativedelta.

(** ** Computations that read the clock and may raise

    [datetime.today()] is an effect: the function reads the clock up to
    three times.  A clock is the sequence of its successive readings and a
    computation threads the number of readings made so far. *)

Definition clock : Type := nat -> datetime.

Definition Py (A : Type) : Type := clock -> nat -> result (A * nat).

Definition ret {A} (a : A) : Py A := fun _ k => Ok (a, k).

Definition bind {A B} (c : Py A) (f : A -> Py B) : Py B :=
  fun clk k =>
    match c clk k with
    | Ok (a, k') => f a clk k'
    | Raise e => Raise e
    end.

Definition lift {A} (r : result A) : Py A :=
  fun _ k => match r with Ok a => Ok (a, k) | Raise e => Raise e end.

(** [datetime.today()] *)
Definition datetime_today : Py datetime := fun clk k => Ok (clk k, S k).

Notation "x <- c ;; f" := (bind c (fun x => f))
  (at level 61, c at next level, right associativity).

(** A list comprehension whose element expression may raise. *)
Fixpoint comprehension {A B} (f : A -> Py B) (xs : list A) : Py (list B) :=
  match xs with
  | [] => ret []
  | x :: xs' =>
      y <- f x ;;
      ys <- comprehension f xs' ;;
      ret (y :: ys)
  end.

(** The value of a computation, the count of clock readings dropped. *)
Definition value {A} (r : result (A * nat)) : result A :=
  match r with Ok (a, _) => Ok a | Raise e => Raise e end.

(** The clock that shows the same instant at every reading. *)
Definition fixed (today : datetime) : clock := fun _ => today.

(** [range(n)] *)
Definition range (n : Z) : list Z := map Z.of_nat (seq 0 (Z.to_nat n)).

(** ** The raw token record (the locals set by source lines 30-58) *)

Module Raw.
Record t : Type := mk {
  name : option string;
  symbol : option string;
  totalSupply : Z;
  canMint : bool;
  canMelt : bool;
  config_str : string;
  tx_hashes : list string;
  tx_dates : list datetime
}.
End Raw.

(** ** The returned dictionary *)

Record factor : Type := mkfactor {
  factor_name : string;
  factor_score : Z;
  factor_description : string;
  factor_impact : string
}.

Record history_point : Type := mkpoint {
  point_date : string;
  point_score : Z
}.

Record tx_entry : Type := mktx {
  tx_hash : string;
  tx_date : string
}.

(** The entries of [strengths] and [concerns] are strings or [None]. *)
Record trustScoreData : Type := mkTrustScoreData {
  tsd_score : Z;
  confidenceLevel : Z;
  factors : list factor;
  history : list history_point;
  strengths : list (option string);
  concerns : list (option string)
}.

Record nftData : Type := mkNftData {
  id : string;
  name : option string;
  symbol : option string;
  totalSupply : Z;
  canMint : bool;
  canMelt : bool;
  configurationString : string;
  blockchain : string;
  verified : bool;
  tokenId : string;
  collection : string;
  creator : string;
  transactionsCount : Z;
  transactionHistory : list tx_entry;
  trustScore : Z;
  trustScoreData_ : trustScoreData
  (* "priceData" is the constant empty dictionary *)
}.

(** ** The scoring expressions, named after the source's locals *)

(** line 60 *)
Definition verified_of (canMint canMelt : bool) : bool :=
  negb canMint && negb canMelt.

(** line 61: [f"{uid[:8]}...{uid[-8:]}"] *)
Definition token_id (uid : string) : string :=
  PyStr.slice uid None (Some 8) ++ "..." ++ PyStr.slice uid (Some (-8)) None.

(** A [str] method called on a value that may be [None]. *)
Definition str_method {A} (name : option string) (f : string -> A) : result A :=
  match name with
  | Some s => Ok (f s)
  | None => Raise AttributeError
  end.

(** The truth value of [name and '#' in name] *)
Definition name_has_hash (name : option string) : bool :=
  match name with
  | None => false
  | Some s => PyStr.truthy s && PyStr.contains "#" s
  end.

(** line 62 *)
Definition collection_of (name : option string) : result string :=
  if name_has_hash name
  then str_method name (fun s => PyStr.strip (nth 0 (PyStr.split "#" s) ""))
  else str_method name PyStr.strip.

(** lines 65-67: [zip] stops at the shorter list. *)
Definition transaction_history (tx_hashes : list string)
    (tx_dates : list datetime) : list tx_entry :=
  map (fun hd => mktx (fst hd) (strftime_Ymd (snd hd)))
      (combine tx_hashes tx_dates).

(** lines 69-72 *)
Definition first_tx_date_of (tx_dates : list datetime) : Py datetime :=
  match tx_dates with
  | d :: ds => ret (py_min d ds)
  | [] => datetime_today
  end.

(** line 74: the expression, and the two readings of the clock it makes,
    the first for the year and the second for the month *)
Definition age_months_of (today_y today_m first_tx_date : datetime) : Z :=
  Z.max 1 ((year today_y - year first_tx_date) * 12
           + month today_m - month first_tx_date).

Definition age_months_step (first_tx_date : datetime) : Py Z :=
  today_y <- datetime_today ;;
  today_m <- datetime_today ;;
  ret (age_months_of today_y today_m first_tx_date).

(** lines 75-78 *)
Definition age_points_of (age_months : Z) : Z := Z.min age_months 25.

Definition tx_points_of (transactionsCount : Z) : Z :=
  Z.min (2 * transactionsCount) 25.

Definition immutability_points_of (canMint canMelt : bool) : Z :=
  if verified_of canMint canMelt then 25
  else if negb (Bool.eqb canMint canMelt) then 12 else 0.

Definition score_of (age_points tx_points immutability_points : Z) : Z :=
  Z.min 100 (50 + age_points + tx_points + immutability_points).

(** lines 88-91 *)
Definition history_of (first_tx_date : datetime)
    (age_months tx_points immutability_points : Z) : Py (list history_point) :=
  comprehension
    (fun i =>
       d <- lift (relativedelta.add first_tx_date i) ;;
       ret (mkpoint (strftime_Ym d)
              (Z.min 100 (50 + Z.min i 25 + tx_points + immutability_points))))
    (range age_months).

(** The filter [if s] of a comprehension over strings and [None]. *)
Definition truthy_entry (s : option string) : bool :=
  match s with Some s => PyStr.truthy s | None => false end.

(** line 92 *)
Definition strengths_of (immutability_points tx_points : Z)
    : list (option string) :=
  filter truthy_entry
    [ (if immutability_points =? 25 then Some "Strong immutability" else None);
      (if tx_points >=? 20 then Some "Good transaction history" else None) ].

(** line 93 *)
Definition concerns_of (age_points : Z) : list (option string) :=
  [ (if age_points <? 5 then Some "Low age" else None) ].

(** ** [fetch_hathor_nft], from line 60 on *)

Definition fetch_hathor_nft (uid : string) (raw : Raw.t) : Py nftData :=
  let verified := verified_of (Raw.canMint raw) (Raw.canMelt raw) in
  let token_id := token_id uid in
  collection <- lift (collection_of (Raw.name raw)) ;;
  let creator := "Unknown Creator" in
  let transactionsCount := Z.of_nat (List.length (Raw.tx_hashes raw)) in
  let transactionHistory :=
    transaction_history (Raw.tx_hashes raw) (Raw.tx_dates raw) in
  first_tx_date <- first_tx_date_of (Raw.tx_dates raw) ;;
  age_months <- age_months_step first_tx_date ;;
  let age_points := age_points_of age_months in
  let tx_points := tx_points_of transactionsCount in
  let immutability_points :=
    immutability_points_of (Raw.canMint raw) (Raw.canMelt raw) in
  let score := score_of age_points tx_points immutability_points in
  history <- history_of first_tx_date age_months tx_points immutability_points ;;
  let trustScoreData :=
    mkTrustScoreData score score
      [ mkfactor "Age" age_points "Age in months since first TX" "Medium";
        mkfactor "Transaction History" tx_points "Number of transactions" "High";
        mkfactor "Immutability" immutability_points "Mint/melt disabled" "High" ]
      history
      (strengths_of immutability_points tx_points)
      (concerns_of age_points) in
  ret (mkNftData uid (Raw.name raw) (Raw.symbol raw) (Raw.totalSupply raw)
         (Raw.canMint raw) (Raw.canMelt raw) (Raw.config_str raw) "Hathor"
         verified token_id collection creator transactionsCount
         transactionHistory score trustScoreData).

(** * Reference notions

    What the statements below compare the code with: the calendar, the
    trend in the specification's words, and the report of a run that
    returns. *)

(** The calendar month that lies [n] months after the month of [d], as a
    year and a month number: months are counted from year 0, twelve to a
    year. *)
Definition calendar_add_months (d : datetime) (n : Z) : Z * Z :=
  let idx := year d * 12 + (month d - 1) + n in
  (idx / 12, idx mod 12 + 1).

(** The character of a decimal digit. *)
Definition digit_char (d : Z) : ascii :=
  match d with
  | 0 => "0" | 1 => "1" | 2 => "2" | 3 => "3" | 4 => "4"
  | 5 => "5" | 6 => "6" | 7 => "7" | 8 => "8" | 9 => "9"
  | _ => "?"
  end%char.

Definition two_digits (n : Z) : string :=
  String (digit_char (n / 10)) (String (digit_char (n mod 10)) "").

Definition four_digits (n : Z) : string :=
  String (digit_char (n / 1000))
    (String (digit_char (n / 100 mod 10))
       (String (digit_char (n / 10 mod 10))
          (String (digit_char (n mod 10)) ""))).

(** The decimal numeral that starts with the digit [d] and goes on as [u]. *)
Definition numeral_digit (d : Z) (u : Decimal.uint) : Decimal.uint :=
  match d with
  | 0 => Decimal.D0 u | 1 => Decimal.D1 u | 2 => Decimal.D2 u
  | 3 => Decimal.D3 u | 4 => Decimal.D4 u | 5 => Decimal.D5 u
  | 6 => Decimal.D6 u | 7 => Decimal.D7 u | 8 => Decimal.D8 u
  | _ => Decimal.D9 u
  end.

(** A year of [datetime] written out: its one to four digits, no zero in
    front. *)
Definition year_text (y : Z) : string :=
  if y <? 10 then String (digit_char y) ""
  else if y <? 100 then two_digits y
  else if y <? 1000 then String (digit_char (y / 100)) (two_digits (y mod 100))
  else four_digits y.

(** The label of a month as the code writes it: the year, a dash, the
    month on two digits. *)
Definition month_label (y m : Z) : string :=
  year_text y ++ "-" ++ two_digits m.



(** Point [i] of the trend: the label is that of the calendar month [i]
    months after the first transaction, the value lets only the age
    contribution vary. *)
Definition spec_trend_point (first_tx_date : datetime)
    (tx_points immutability_points i : Z) : history_point :=
  mkpoint
    (month_label (fst (calendar_add_months first_tx_date i))
                 (snd (calendar_add_months first_tx_date i)))
    (Z.min 100 (50 + Z.min i 25 + tx_points + immutability_points)).

(** The text of [s] before the first occurrence of [c], all of [s] when
    there is none. *)
Fixpoint before_first (c : ascii) (s : string) : string :=
  match s with
  | EmptyString => ""
  | String a s' => if Ascii.eqb a c then "" else String a (before_first c s')
  end.

(** The collection of a name that is present. *)
Definition collection_str (s : string) : string :=
  if PyStr.truthy s && PyStr.contains "#" s
  then PyStr.strip (nth 0 (PyStr.split "#" s) "")
  else PyStr.strip s.

(** The first transaction date when the clock, read for the [k]-th time,
    shows [now]. *)
Definition first_tx_date_at (now : datetime) (tx_dates : list datetime)
    : datetime :=
  match tx_dates with
  | [] => now
  | d :: ds => py_min d ds
  end.

(** The dictionary returned for a collection, a first transaction date and
    an age. *)
Definition report_of (uid : string) (raw : Raw.t) (collection : string)
    (first_tx_date : datetime) (age_months : Z) : nftData :=
  let transactionsCount := Z.of_nat (List.length (Raw.tx_hashes raw)) in
  let age_points := age_points_of age_months in
  let tx_points := tx_points_of transactionsCount in
  let immutability_points :=
    immutability_points_of (Raw.canMint raw) (Raw.canMelt raw) in
  let score := score_of age_points tx_points immutability_points in
  mkNftData uid (Raw.name raw) (Raw.symbol raw) (Raw.totalSupply raw)
    (Raw.canMint raw) (Raw.canMelt raw) (Raw.config_str raw) "Hathor"
    (verified_of (Raw.canMint raw) (Raw.canMelt raw)) (token_id uid)
    collection "Unknown Creator" transactionsCount
    (transaction_history (Raw.tx_hashes raw) (Raw.tx_dates raw)) score
    (mkTrustScoreData score score
       [ mkfactor "Age" age_points "Age in months since first TX" "Medium";
         mkfactor "Transaction History" tx_points "Number of transactions" "High";
         mkfactor "Immutability" immutability_points "Mint/melt disabled" "High" ]
       (map (spec_trend_point first_tx_date tx_points immutability_points)
            (range age_months))
       (strengths_of immutability_points tx_points)
       (concerns_of age_points)).

(** ** Sample inputs *)

Definition uid_example : string :=
  "0002b13f155bf5e391b003a610bc902848e9a58c758889f81e17a5c031fe5c76".

Definition today_example : datetime := mkdatetime 2024 7 3 52200000000.

(** A token that was just issued: no transaction found. *)
Definition raw_fresh : Raw.t :=
  Raw.mk (Some "CryptoPunks #42") (Some "CP") 1 false false "" [] [].

(** The same token as the resolver leaves it when no name was found. *)
Definition raw_no_name : Raw.t :=
  Raw.mk None None 1 false false "" [] [].


(** A token first seen six months before [today_example]. *)
Definition raw_aged : Raw.t :=
  Raw.mk (Some "Relic") (Some "RLC") 1 true true ""
    ["00000d3a1b2c4e5f60718293a4b5c6d7e8f90123456789abcdef0123456789ab";
     "0000a1b2c3d4e5f60718293a4b5c6d7e8f90123456789abcdef0123456789abc"]
    [mkdatetime 2024 3 9 0; mkdatetime 2024 1 15 0].

(** ** Notions for strings *)

(** Every character of [s] is whitespace. *)
Fixpoint all_space (s : string) : bool :=
  match s with
  | EmptyString => true
  | String a s' => PyStr.isspace a && all_space s'
  end.

Definition starts_with_space (s : string) : bool :=
  match s with
  | EmptyString => false
  | String a _ => PyStr.isspace a
  end.

Fixpoint ends_with_space (s : string) : bool :=
  match s with
  | EmptyString => false
  | String a EmptyString => PyStr.isspace a
  | String _ s' => ends_with_space s'
  end.

(** [sep.join(fields)] for a one-character separator. *)
Fixpoint join (sep : ascii) (fields : list string) : string :=
  match fields with
  | [] => ""
  | [f] => f
  | f :: fs => f ++ String sep (join sep fs)
  end.

(** The number of occurrences of [c] in [s]. *)
Fixpoint count_char (c : ascii) (s : string) : nat :=
  match s with
  | EmptyString => O
  | String a s' => (if Ascii.eqb a c then 1 else 0) + count_char c s'
  end.

(** A verified token with 13 transactions, all on one day: 13 distinct
    hashes of 64 characters. *)
Definition raw_active : Raw.t :=
  Raw.mk (Some "Busy #7") (Some "BSY") 1 false false ""
    (map (fun c => String c (String.substring 1 63 uid_example))
       ["0"; "1"; "2"; "3"; "4"; "5"; "6"; "7"; "8"; "9"; "a"; "b"; "c"]%char)
    (repeat (mkdatetime 2024 6 30 0) 13).

(** The number of the month of [d], months counted from year 0. *)
Definition month_index (d : datetime) : Z := year d * 12 + (month d - 1).

(** The sum of a list of integers. *)
Definition list_sum_Z (l : list Z) : Z := fold_right Z.add 0 l.

(** ** Reading a label back *)

(** The value of a decimal digit. *)
Definition digit_value (c : ascii) : Z := Z.of_nat (nat_of_ascii c) - 48.

(** The number written in decimal by [s], after the digits already read
    gave [acc]. *)
Fixpoint parse_dec_from (acc : Z) (s : string) : Z :=
  match s with
  | EmptyString => acc
  | String c s' => parse_dec_from (acc * 10 + digit_value c) s'
  end.

Definition parse_dec (s : string) : Z := parse_dec_from 0 s.

(** The text of [s] after the first occurrence of [c], nothing when
    there is none. *)
Fixpoint after_first (c : ascii) (s : string) : string :=
  match s with
  | EmptyString => ""
  | String a s' => if Ascii.eqb a c then s' else after_first c s'
  end.

(** The year and the month of a label: the numbers before and after its
    dash. *)
Definition parse_Ym (s : string) : Z * Z :=
  (parse_dec (before_first "-" s), parse_dec (after_first "-" s)).

(** ** Notions for comparing runs *)

(** The outcome of a run seen through a part of the report. *)
Definition result_map {A B} (f : A -> B) (r : result A) : result B :=
  match r with Ok a => Ok (f a) | Raise e => Raise e end.

(** A clock that passes from 2024 to 2025 after its first reading. *)
Definition clock_new_year : clock :=
  fun j =>
    match j with
    | O => mkdatetime 2024 12 31 86399999999
    | S _ => mkdatetime 2025 1 1 0
    end.

(** A token first seen in March 2023. *)
Definition raw_2023 : Raw.t :=
  Raw.mk (Some "Elder #1") (Some "ELD") 1 false true ""
    [uid_example] [mkdatetime 2023 3 14 0].

(** Two transaction hashes. *)
Definition hash_a : string :=
  "00000d3a1b2c4e5f60718293a4b5c6d7e8f90123456789abcdef0123456789ab".

Definition hash_b : string :=
  "0000a1b2c3d4e5f60718293a4b5c6d7e8f90123456789abcdef0123456789abc".

(** * The mock analysis server: [DataExtraction/simple_server.py]

    [SimpleHTTPRequestHandler] answers through the methods of its base
    class.  A handler is embedded as the sequence of the calls it makes
    ([send_response], [send_header], [end_headers], [wfile.write],
    [rfile.read], [print]), a call being recorded when it returns, and by
    the way the handler ends.  The calls whose result depends on more than
    the embedding holds are given by an environment and by the request,
    and each of them may raise where the library may: [json.loads],
    [json.dumps], [int] of a header, the f-string, [print], [rfile.read],
    and the calls on the response, which fail when the client has gone or
    the log stream is closed.  [rfile.read] may also wait without end for
    bytes that the client does not send; every other call is taken to end.
    An exception is an instance of [Exception]: an interrupt
    ([KeyboardInterrupt], [SystemExit]), which no clause of the handler
    catches, is not modelled. *)

Module Server.

(** The values [json.loads] returns. A [dict] is the list of its items,
    a [float] its literal. *)
#[local] Set Warnings "-register-all".
Inductive json : Type :=
| JNull
| JBool (b : bool)
| JInt (n : Z)
| JFloat (literal : string)
| JStr (s : string)
| JList (l : list json)
| JDict (items : list (string * json)).

(** [d.get(key, default)]: the value of the item with this key, the one
    set last if the list names the key twice. *)
Definition dict_get (items : list (string * json)) (key : string)
    (default : json) : json :=
  match find (fun kv => String.eqb (fst kv) key) (rev items) with
  | Some kv => snd kv
  | None => default
  end.

(** [type(v).__name__] *)
Definition type_name (v : json) : string :=
  match v with
  | JNull => "NoneType"
  | JBool _ => "bool"
  | JInt _ => "int"
  | JFloat _ => "float"
  | JStr _ => "str"
  | JList _ => "list"
  | JDict _ => "dict"
  end.

(** How a library call ends: with a value, or with an exception (an
    instance of [Exception]) whose [str] is [message]. *)
Inductive outcome (A : Type) : Type :=
| Value (a : A)
| Raised (message : string).
Arguments Value {A} a.
Arguments Raised {A} message.

(** How [json.loads] ends: a value, [json.JSONDecodeError], or another
    exception (a [UnicodeDecodeError], a [RecursionError]) with its
    message. *)
Inductive loads_result : Type :=
| Loaded (v : json)
| JSONDecodeError
| OtherError (message : string).

(** How [self.rfile.read(size)] ends on a connection. *)
Inductive read_result : Type :=
| Read (data : string)  (* the bytes, fewer than [size] at the end of the
                           stream *)
| Read_raises           (* a length below -1 or too large, a connection
                           reset, a timeout *)
| Read_waits.           (* the client sends fewer bytes and keeps the
                           connection open *)

Inductive action : Type :=
| send_response (code : Z)
| send_header (keyword value : string)
| end_headers
| wfile_write (data : string)
| rfile_read (size : Z)
| print (line : string).

Record env : Type := mkenv {
  json_dumps : json -> outcome string;
  json_loads : string -> loads_result;
  py_int : string -> option Z;         (* [int(s)], [None] for [ValueError] *)
  py_format : json -> outcome string;  (* [f"{v}"] *)
  py_print : string -> outcome unit;   (* [print(line)] *)
  call_outcome : nat -> action -> outcome unit
    (* the call on the response that the handler attempts after [k]
       others: [send_response] logs the request, [end_headers] and
       [wfile.write] send to the socket *)
}.

(** What a handler reads of the request: [self.path],
    [self.headers['Content-Length']] ([None] without the header), and what
    [self.rfile.read(size)] does on this connection. *)
Record request : Type := mkrequest {
  path : string;
  content_length : option string;
  rfile : Z -> read_result
}.

(** The exceptions that leave a handler. *)
Inductive uncaught : Type :=
| TypeError_int_of_None      (* [int(None)] *)
| ValueError_int             (* [int] of a text that is no integer *)
| Raised_by_read             (* [rfile.read] raised *)
| Raised_responding (message : string).
                             (* [json.dumps] or a call on the response
                                raised, outside the [try] or in one of its
                                [except] clauses *)

Inductive ending : Type :=
| Returns
| Propagates (e : uncaught)
| Waits.                     (* the handler does not return: it waits for
                                the body *)

(** A handler at work: how many calls on the response it has attempted,
    and the calls that returned, in order. *)
Record progress : Type := mkprogress {
  attempted : nat;
  made : list action
}.

(** One call on the response. *)
Definition call (E : env) (a : action) (p : progress)
    : progress * outcome unit :=
  match call_outcome E (attempted p) a with
  | Value _ => (mkprogress (S (attempted p)) (made p ++ [a]), Value tt)
  | Raised message => (mkprogress (S (attempted p)) (made p), Raised message)
  end.

(** Calls one after the other, up to the first that raises. *)
Fixpoint call_each (E : env) (l : list action) (p : progress)
    : progress * outcome unit :=
  match l with
  | [] => (p, Value tt)
  | a :: l' =>
      match call E a p with
      | (p', Value _) => call_each E l' p'
      | (p', Raised message) => (p', Raised message)
      end
  end.

(** [datetime.isoformat()] of a naive datetime *)
Definition isoformat (d : datetime) : string :=
  let seconds := tod d / 1000000 in
  let microsecond := tod d mod 1000000 in
  PyStr.zfill 4 (year d) ++ "-" ++ PyStr.zfill 2 (month d) ++ "-"
  ++ PyStr.zfill 2 (day d) ++ "T"
  ++ PyStr.zfill 2 (seconds / 3600) ++ ":"
  ++ PyStr.zfill 2 ((seconds / 60) mod 60) ++ ":"
  ++ PyStr.zfill 2 (seconds mod 60)
  ++ (if microsecond =? 0 then "" else "." ++ PyStr.zfill 6 microsecond).

(** lines 7-13: the calls of [_set_headers(status_code)] *)
Definition _set_headers (status_code : Z) : list action :=
  [ send_response status_code;
    send_header "Content-type" "application/json";
    send_header "Access-Control-Allow-Origin" "*";
    send_header "Access-Control-Allow-Methods" "GET, POST, OPTIONS";
    send_header "Access-Control-Allow-Headers" "Content-Type";
    end_headers ].

(** [self._set_headers(code)] followed by
    [self.wfile.write(json.dumps(body).encode('utf-8'))]: the headers are
    out when [json.dumps] runs. *)
Definition respond (E : env) (status_code : Z) (body : json) (p : progress)
    : progress * outcome unit :=
  match call_each E (_set_headers status_code) p with
  | (p, Raised message) => (p, Raised message)
  | (p, Value _) =>
      match json_dumps E body with
      | Raised message => (p, Raised message)
      | Value data => call E (wfile_write data) p
      end
  end.

(** The calls of a handler that has ended and the way it ended. *)
Definition finish (r : progress * outcome unit) : list action * ending :=
  (made (fst r),
   match snd r with
   | Value _ => Returns
   | Raised message => Propagates (Raised_responding message)
   end).

(** A handler that starts after the calls [done]. *)
Definition start (done : list action) : progress := mkprogress 0 done.

(** lines 15-16 *)
Definition do_OPTIONS (E : env) : list action * ending :=
  finish (call_each E (_set_headers 200) (start [])).

(** lines 27-28 and 81-82 *)
Definition not_found (E : env) (p : progress) : progress * outcome unit :=
  respond E 404 (JDict [("error", JStr "Not Found")]) p.

(** lines 18-28; [utcnow] is what the clock shows if it is read *)
Definition do_GET (E : env) (utcnow : datetime) (r : request)
    : list action * ending :=
  if String.eqb (path r) "/api/health" then
    finish
      (respond E 200
         (JDict [("status", JStr "ok"); ("timestamp", JStr (isoformat utcnow))])
         (start []))
  else finish (not_found E (start [])).

(** lines 41-61 *)
Definition analysis_response (contract_address : json) (utcnow : datetime)
    : json :=
  JDict
    [ ("success", JBool true);
      ("data",
        JDict
          [ ("contractAddress", contract_address);
            ("name", JStr "Test NFT Collection");
            ("symbol", JStr "TEST");
            ("totalSupply", JStr "10000");
            ("analysis",
              JDict [ ("security", JInt 85); ("activity", JInt 72);
                      ("community", JInt 65); ("liquidity", JInt 90) ]);
            ("priceData",
              JDict [ ("currentPrice", JFloat "0.5");
                      ("priceChange24h", JFloat "2.5");
                      ("volume24h", JInt 2500) ]);
            ("lastUpdated", JStr (isoformat utcnow)) ]) ].

(** How the body of the [try] statement ends. *)
Inductive tried : Type :=
| Completed
| Raised_JSONDecodeError
| Raised_Exception (message : string).

(** lines 36-64: the body of the [try] statement, given the bytes read.
    Every call of it may raise; what it has done before stays done. *)
Definition try_body (E : env) (utcnow : datetime) (post_data : string)
    (p : progress) : progress * tried :=
  match json_loads E post_data with
  | JSONDecodeError => (p, Raised_JSONDecodeError)
  | OtherError message => (p, Raised_Exception message)
  | Loaded (JDict items) =>
      let contract_address := dict_get items "contractAddress" (JStr "") in
      match py_format E contract_address with
      | Raised message => (p, Raised_Exception message)
      | Value text =>
          let line := "[INFO] Received request to analyze: " ++ text in
          match py_print E line with
          | Raised message => (p, Raised_Exception message)
          | Value _ =>
              let response := analysis_response contract_address utcnow in
              match respond E 200 response
                      (mkprogress (attempted p) (made p ++ [print line])) with
              | (p, Value _) => (p, Completed)
              | (p, Raised message) => (p, Raised_Exception message)
              end
          end
      end
  | Loaded data =>
      (p, Raised_Exception
            ("'" ++ type_name data ++ "' object has no attribute 'get'"))
  end.

(** lines 66-71 *)
Definition invalid_json (E : env) (p : progress) : progress * outcome unit :=
  respond E 400
    (JDict [("success", JBool false); ("error", JStr "Invalid JSON")]) p.

(** lines 73-79, for an exception whose [str] is [message] *)
Definition internal_error (E : env) (message : string) (p : progress)
    : progress * outcome unit :=
  respond E 500
    (JDict [("success", JBool false);
            ("error", JStr "Internal Server Error");
            ("message", JStr message)]) p.

(** lines 35-79: the [try] statement with its two [except] clauses; an
    exception raised in a clause leaves the handler. *)
Definition analyze (E : env) (utcnow : datetime) (post_data : string)
    (p : progress) : progress * outcome unit :=
  match try_body E utcnow post_data p with
  | (p, Completed) => (p, Value tt)
  | (p, Raised_JSONDecodeError) => invalid_json E p
  | (p, Raised_Exception message) => internal_error E message p
  end.

(** lines 30-82 *)
Definition do_POST (E : env) (utcnow : datetime) (r : request)
    : list action * ending :=
  if String.eqb (path r) "/api/analyze" then
    match content_length r with
    | None => ([], Propagates TypeError_int_of_None)
    | Some header =>
        match py_int E header with
        | None => ([], Propagates ValueError_int)
        | Some size =>
            match rfile r size with
            | Read_raises => ([], Propagates Raised_by_read)
            | Read_waits => ([], Waits)
            | Read post_data =>
                finish (analyze E utcnow post_data (start [rfile_read size]))
            end
        end
    end
  else finish (not_found E (start [])).

End Server.

(** ** Notions for the server *)

(** The three request methods the handler defines. *)
Inductive method : Type := OPTIONS | GET | POST.

Definition handle (m : method) (E : Server.env) (utcnow : datetime)
    (r : Server.request) : list Server.action * Server.ending :=
  match m with
  | OPTIONS => Server.do_OPTIONS E
  | GET => Server.do_GET E utcnow r
  | POST => Server.do_POST E utcnow r
  end.

(** The calls on the response: all but [print] and [rfile.read]. *)
Definition to_client (a : Server.action) : bool :=
  match a with
  | Server.rfile_read _ | Server.print _ => false
  | _ => true
  end.

(** The status codes sent. *)
Definition status_codes (l : list Server.action) : list Z :=
  flat_map (fun a => match a with Server.send_response c => [c] | _ => [] end) l.

(** The bodies written. *)
Definition bodies (l : list Server.action) : list string :=
  flat_map (fun a => match a with Server.wfile_write b => [b] | _ => [] end) l.

(** An object whose values are strings and booleans only. *)
Definition flat (items : list (string * Server.json)) : bool :=
  forallb
    (fun kv =>
       match snd kv with
       | Server.JStr _ | Server.JBool _ => true
       | _ => false
       end)
    items.

(** [json.dumps] does not raise on the small bodies of the handler:
    objects of strings and booleans. *)
Definition dumps_flat (E : Server.env) : Prop :=
  forall items,
    flat items = true ->
    exists data, Server.json_dumps E (Server.JDict items) = Server.Value data.

(** The client stays and the log stream is open: every call on the
    response returns. *)
Definition response_calls_return (E : Server.env) : Prop :=
  forall k a, Server.call_outcome E k a = Server.Value tt.

(** The line that [do_POST] prints for a contract address. *)
Definition info_line (text : string) : string :=
  "[INFO] Received request to analyze: " ++ text.

(** An environment to run the server on samples: a [json.loads] that knows
    two inputs, a [json.dumps] that tells the bodies apart by their first
    key, an f-string and a [print] that return, and a client that
    stays. *)
Definition env_example : Server.env :=
  Server.mkenv
    (fun v =>
       match v with
       | Server.JDict ((key, _) :: _) => Server.Value ("{" ++ key ++ "}")
       | _ => Server.Value "?"
       end)
    (fun s =>
       if String.eqb s "{}" then Server.Loaded (Server.JDict [])
       else if String.eqb s "[]" then Server.Loaded (Server.JList [])
       else Server.JSONDecodeError)
    (fun s => if String.eqb s "2" then Some 2 else None)
    (fun _ => Server.Value "")
    (fun _ => Server.Value tt)
    (fun _ _ => Server.Value tt).

(** The same with a client that closes the connection once it has sent its
    request: the calls that send to the socket raise. *)
Definition env_client_gone : Server.env :=
  Server.mkenv
    (Server.json_dumps env_example) (Server.json_loads env_example)
    (Server.py_int env_example) (Server.py_format env_example)
    (Server.py_print env_example)
    (fun _ a =>
       match a with
       | Server.end_headers | Server.wfile_write _ =>
           Server.Raised "[Errno 32] Broken pipe"
       | _ => Server.Value tt
       end).

(** A connection whose client has sent the two bytes of [body] and waits
    for the answer. *)
Definition request_example (body : string) : Server.request :=
  Server.mkrequest "/api/analyze" (Some "2")
    (fun size =>
       if size <? -1 then Server.Read_raises
       else if (0 <=? size) && (size <=? 2)
            then Server.Read (String.substring 0 (Z.to_nat size) body)
            else Server.Read_waits).

(** * Properties *)

(** ** Booleans to propositions *)

Ltac to_prop :=
  repeat match goal with
  | H : _ |- _ =>
      first
        [ rewrite orb_true_iff in H | rewrite andb_true_iff in H
        | rewrite orb_false_iff in H | rewrite andb_false_iff in H
        | rewrite negb_true_iff in H | rewrite negb_false_iff in H
        | rewrite Z.ltb_lt in H | rewrite Z.ltb_ge in H
        | rewrite Z.leb_le in H | rewrite Z.leb_gt in H
        | rewrite Z.eqb_eq in H | rewrite Z.eqb_neq in H
        | rewrite Z.gtb_ltb in H | rewrite Z.geb_leb in H ]
  end;
  repeat first
    [ rewrite orb_true_iff | rewrite andb_true_iff
    | rewrite orb_false_iff | rewrite andb_false_iff
    | rewrite negb_true_iff | rewrite negb_false_iff
    | rewrite Z.ltb_lt | rewrite Z.ltb_ge
    | rewrite Z.leb_le | rewrite Z.leb_gt
    | rewrite Z.eqb_eq | rewrite Z.eqb_neq
    | rewrite Z.gtb_ltb | rewrite Z.geb_leb ].

(** ** The order on [datetime] and [min] *)

Section DatetimeOrder.

Lemma datetime_ltb_spec (a b : datetime) :
  datetime_ltb a b = true <->
  year a < year b
  \/ (year a = year b
      /\ (month a < month b
          \/ (month a = month b
              /\ (day a < day b \/ (day a = day b /\ tod a < tod b))))).
Proof. unfold datetime_ltb. to_prop. reflexivity. Qed.

Lemma datetime_leb_refl (a : datetime) : datetime_leb a a = true.
Proof.
  unfold datetime_leb. apply negb_true_iff.
  destruct (datetime_ltb a a) eqn:E; [|reflexivity].
  apply datetime_ltb_spec in E. lia.
Qed.

Lemma datetime_leb_trans (a b c : datetime) :
  datetime_leb a b = true -> datetime_leb b c = true ->
  datetime_leb a c = true.
Proof.
  unfold datetime_leb. rewrite !negb_true_iff. intros Hab Hbc.
  destruct (datetime_ltb c a) eqn:E; [|reflexivity].
  apply datetime_ltb_spec in E.
  assert (Nab : ~ datetime_ltb b a = true) by congruence.
  assert (Nbc : ~ datetime_ltb c b = true) by congruence.
  rewrite datetime_ltb_spec in Nab, Nbc. lia.
Qed.

Lemma datetime_ltb_leb (a b : datetime) :
  datetime_ltb a b = true -> datetime_leb a b = true.
Proof.
  unfold datetime_leb. rewrite negb_true_iff. intros Hab.
  destruct (datetime_ltb b a) eqn:E; [|reflexivity].
  apply datetime_ltb_spec in E, Hab. lia.
Qed.

(** The running minimum is an element seen so far and below all of
    them. *)
Lemma py_min_spec (ds : list datetime) (d0 : datetime) :
  In (py_min d0 ds) (d0 :: ds)
  /\ Forall (fun d => datetime_leb (py_min d0 ds) d = true) (d0 :: ds).
Proof.
  unfold py_min. revert d0.
  induction ds as [|d ds IH]; intros d0; cbn [fold_left].
  - split; [now left|]. constructor; [apply datetime_leb_refl|constructor].
  - destruct (datetime_ltb d d0) eqn:E.
    + destruct (IH d) as [Hin Hall]. split.
      * destruct Hin as [<-|Hin]; [right; now left|right; now right].
      * inversion Hall as [|? ? Hd Hds]; subst.
        constructor; [|constructor; assumption].
        eapply datetime_leb_trans; [exact Hd|].
        now apply datetime_ltb_leb.
    + destruct (IH d0) as [Hin Hall]. split.
      * destruct Hin as [<-|Hin]; [now left|right; now right].
      * inversion Hall as [|? ? Hd Hds]; subst.
        constructor; [assumption|]. constructor; [|assumption].
        eapply datetime_leb_trans; [exact Hd|].
        unfold datetime_leb. now rewrite E.
Qed.

Lemma py_min_valid (ds : list datetime) (d0 : datetime) :
  Forall valid_datetime (d0 :: ds) -> valid_datetime (py_min d0 ds).
Proof.
  intros Hall. rewrite Forall_forall in Hall.
  apply Hall. apply py_min_spec.
Qed.

End DatetimeOrder.

(** ** Adding months *)

Section AddMonths.

Lemma valid_datetimeb_iff (d : datetime) :
  valid_datetimeb d = true <-> valid_datetime d.
Proof. unfold valid_datetimeb, valid_datetime. to_prop. tauto. Qed.

Lemma days_in_month_ge (y m : Z) : 1 <= m <= 12 -> 28 <= days_in_month y m.
Proof.
  intros Hm. unfold days_in_month.
  assert (Hc : m = 1 \/ m = 2 \/ m = 3 \/ m = 4 \/ m = 5 \/ m = 6 \/ m = 7
               \/ m = 8 \/ m = 9 \/ m = 10 \/ m = 11 \/ m = 12) by lia.
  repeat (destruct Hc as [->|Hc]); try subst m; cbn;
    destruct (isleap y); cbn; lia.
Qed.

Lemma fix_nonneg (n : Z) :
  0 <= n ->
  exists q r, relativedelta.fix_ n = (q, r)
              /\ n = 12 * q + r /\ 0 <= r < 12 /\ 0 <= q.
Proof.
  intros Hn. unfold relativedelta.fix_.
  destruct (Z.abs n >? 11) eqn:E.
  - assert (Hs : (n <? 0) = false) by (apply Z.ltb_ge; lia).
    rewrite Hs, !Z.mul_1_r.
    exists (n / 12), (n mod 12). split; [reflexivity|].
    pose proof (Z.div_mod n 12 ltac:(lia)).
    pose proof (Z.mod_pos_bound n 12 ltac:(lia)).
    pose proof (Z.div_pos n 12 Hn ltac:(lia)). lia.
  - exists 0, n. to_prop. split; [reflexivity|lia].
Qed.

Lemma month_index_unique (idx y m : Z) :
  1 <= m <= 12 -> idx = y * 12 + (m - 1) ->
  (idx / 12, idx mod 12 + 1) = (y, m).
Proof.
  intros Hm ->.
  assert (Hq : (y * 12 + (m - 1)) / 12 = y).
  { symmetry. apply (Z.div_unique _ 12 y (m - 1)); lia. }
  assert (Hr : (y * 12 + (m - 1)) mod 12 = m - 1).
  { symmetry. apply (Z.mod_unique _ 12 y (m - 1)); lia. }
  rewrite Hq, Hr. f_equal. lia.
Qed.

Lemma days_in_month_le (y m : Z) : days_in_month y m <= 31.
Proof.
  unfold days_in_month. destruct (m =? 2) eqn:E.
  - apply Z.eqb_eq in E. subst m. cbn. destruct (isleap y); lia.
  - cbn [andb]. destruct m as [|p|p]; cbn; try lia.
    do 4 (destruct p as [p|p|]; cbn; try lia).
Qed.

(** [replace] with fields a [datetime] can hold returns. *)
Lemma datetime_replace_valid (d : datetime) (y m dd : Z) :
  valid_datetime (mkdatetime y m dd (tod d)) ->
  datetime_replace d y m dd = Ok (mkdatetime y m dd (tod d)).
Proof.
  intros Hv. unfold datetime_replace.
  rewrite (proj2 (valid_datetimeb_iff _) Hv).
  destruct Hv as (Hy & Hm & Hd). unfold MINYEAR, MAXYEAR in *. cbn in *.
  pose proof (days_in_month_le y m).
  assert (Hf : fits_int y && fits_int m && fits_int dd = true).
  { unfold fits_int. change (2 ^ 31) with 2147483648.
    rewrite !andb_true_iff, !Z.leb_le, !Z.ltb_lt. lia. }
  now rewrite Hf.
Qed.

(** Within [datetime]'s range, [dt + relativedelta(months=n)] returns,
    and its year and month are those of the calendar. *)
Lemma relativedelta_add_ok (dt : datetime) (n : Z) :
  valid_datetime dt -> 0 <= n ->
  year dt * 12 + (month dt - 1) + n <= MAXYEAR * 12 + 11 ->
  exists d',
    relativedelta.add dt n = Ok d'
    /\ (year d', month d') = calendar_add_months dt n
    /\ valid_datetime d'.
Proof.
  intros (Hy & Hm & Hd) Hn Hmax. unfold MINYEAR, MAXYEAR in *.
  destruct (fix_nonneg n Hn) as (q & r & Hfix & Hqr & Hr & Hq).
  unfold relativedelta.add. rewrite Hfix.
  set (ym := if r =? 0 then (year dt + q, month dt)
             else if month dt + r >? 12
                  then (year dt + q + 1, month dt + r - 12)
                  else if month dt + r <? 1
                       then (year dt + q - 1, month dt + r + 12)
                       else (year dt + q, month dt + r)).
  assert (Hym : 1 <= snd ym <= 12
                /\ year dt * 12 + (month dt - 1) + n
                   = fst ym * 12 + (snd ym - 1)).
  { subst ym. destruct (r =? 0) eqn:E0; [to_prop; cbn; lia|].
    destruct (month dt + r >? 12) eqn:E1; [to_prop; cbn; lia|].
    destruct (month dt + r <? 1) eqn:E2; to_prop; cbn; lia. }
  destruct ym as [y' m']. cbn [fst snd] in Hym. destruct Hym as [Hm' Hidx].
  set (d' := mkdatetime y' m'
               (Z.min (days_in_month y' m') (day dt)) (tod dt)).
  assert (Hv : valid_datetime d').
  { subst d'. unfold valid_datetime, MINYEAR, MAXYEAR. cbn.
    pose proof (days_in_month_ge y' m' Hm'). lia. }
  rewrite (datetime_replace_valid dt _ _ _ Hv).
  exists d'. split; [reflexivity|]. split; [|exact Hv].
  unfold calendar_add_months. subst d'. cbn [year month].
  symmetry. now apply month_index_unique.
Qed.

End AddMonths.

(** ** Running computations *)

Lemma bind_ok {A B} (c : Py A) (f : A -> Py B) (clk : clock) (k : nat)
    (a : A) (k' : nat) :
  c clk k = Ok (a, k') -> bind c f clk k = f a clk k'.
Proof. unfold bind. now intros ->. Qed.

Lemma bind_raise {A B} (c : Py A) (f : A -> Py B) (clk : clock) (k : nat)
    (e : exn) :
  c clk k = Raise e -> bind c f clk k = Raise e.
Proof. unfold bind. now intros ->. Qed.

(** ** Labels *)

Section LabelText.

Lemma digit_cases (d : Z) :
  0 <= d <= 9 ->
  d = 0 \/ d = 1 \/ d = 2 \/ d = 3 \/ d = 4
  \/ d = 5 \/ d = 6 \/ d = 7 \/ d = 8 \/ d = 9.
Proof. lia. Qed.

Ltac by_digit H :=
  apply digit_cases in H;
  destruct H as [->|[->|[->|[->|[->|[->|[->|[->|[->| ->]]]]]]]]].

Lemma digit_digit_char (d : Z) : 0 <= d <= 9 -> PyStr.digit d = digit_char d.
Proof. intros H. by_digit H; reflexivity. Qed.

Lemma digit_value_digit_char (d : Z) :
  0 <= d <= 9 -> digit_value (digit_char d) = d.
Proof. intros H. by_digit H; reflexivity. Qed.

Lemma digit_char_no_dash (d : Z) :
  0 <= d <= 9 -> Ascii.eqb (digit_char d) "-" = false.
Proof. intros H. by_digit H; reflexivity. Qed.

Lemma string_of_numeral_digit (d : Z) (u : Decimal.uint) :
  0 <= d <= 9 ->
  DecimalString.NilEmpty.string_of_uint (numeral_digit d u)
  = String (digit_char d) (DecimalString.NilEmpty.string_of_uint u).
Proof. intros H. by_digit H; reflexivity. Qed.

Lemma of_uint_acc_numeral_digit (d : Z) (u : Decimal.uint) (acc : positive) :
  0 <= d <= 9 ->
  Pos.of_uint_acc (numeral_digit d u) acc
  = Pos.of_uint_acc u (Z.to_pos (d + 10 * Z.pos acc)).
Proof. intros H. by_digit H; cbn [numeral_digit Pos.of_uint_acc]; f_equal; lia. Qed.

Lemma of_uint_numeral_digit (d : Z) (u : Decimal.uint) :
  1 <= d <= 9 ->
  Z.of_uint (numeral_digit d u) = Z.pos (Pos.of_uint_acc u (Z.to_pos d)).
Proof.
  intros H. assert (H' : 0 <= d <= 9) by lia.
  by_digit H'; try lia; reflexivity.
Qed.

Lemma unorm_numeral_digit (d : Z) (u : Decimal.uint) :
  1 <= d <= 9 -> Decimal.unorm (numeral_digit d u) = numeral_digit d u.
Proof.
  intros H. assert (H' : 0 <= d <= 9) by lia.
  by_digit H'; try lia; reflexivity.
Qed.

(** A number is printed as the numeral whose value it is. *)
Lemma to_int_numeral (d : Z) (u : Decimal.uint) (y : Z) :
  1 <= d <= 9 -> Z.of_uint (numeral_digit d u) = y ->
  Z.to_int y = Decimal.Pos (numeral_digit d u).
Proof.
  intros Hd <-.
  change (Z.of_uint (numeral_digit d u))
    with (Z.of_int (Decimal.Pos (numeral_digit d u))).
  rewrite DecimalZ.to_of. cbn [Decimal.norm].
  now rewrite unorm_numeral_digit.
Qed.

(** The year as [%Y] prints it, for the years of [datetime] (and 0). *)
Lemma decimal_year_text (y : Z) :
  0 <= y <= 9999 -> PyStr.decimal y = year_text y.
Proof.
  intros Hy. unfold PyStr.decimal, year_text, two_digits, four_digits.
  destruct (y <? 10) eqn:E1; [apply Z.ltb_lt in E1|apply Z.ltb_ge in E1].
  { assert (H : 0 <= y <= 9) by lia. by_digit H; reflexivity. }
  destruct (y <? 100) eqn:E2; [apply Z.ltb_lt in E2|apply Z.ltb_ge in E2].
  { rewrite (to_int_numeral (y / 10) (numeral_digit (y mod 10) Decimal.Nil)).
    - cbn [DecimalString.NilEmpty.string_of_int].
      rewrite !string_of_numeral_digit by (Z.div_mod_to_equations; lia).
      reflexivity.
    - Z.div_mod_to_equations; lia.
    - rewrite of_uint_numeral_digit by (Z.div_mod_to_equations; lia).
      rewrite !of_uint_acc_numeral_digit by (Z.div_mod_to_equations; lia).
      cbn [Pos.of_uint_acc]. Z.div_mod_to_equations; lia. }
  destruct (y <? 1000) eqn:E3; [apply Z.ltb_lt in E3|apply Z.ltb_ge in E3].
  { rewrite (to_int_numeral (y / 100)
               (numeral_digit (y mod 100 / 10)
                  (numeral_digit (y mod 100 mod 10) Decimal.Nil))).
    - cbn [DecimalString.NilEmpty.string_of_int].
      rewrite !string_of_numeral_digit by (Z.div_mod_to_equations; lia).
      reflexivity.
    - Z.div_mod_to_equations; lia.
    - rewrite of_uint_numeral_digit by (Z.div_mod_to_equations; lia).
      rewrite !of_uint_acc_numeral_digit by (Z.div_mod_to_equations; lia).
      cbn [Pos.of_uint_acc]. Z.div_mod_to_equations; lia. }
  rewrite (to_int_numeral (y / 1000)
             (numeral_digit (y / 100 mod 10)
                (numeral_digit (y / 10 mod 10)
                   (numeral_digit (y mod 10) Decimal.Nil)))).
  - cbn [DecimalString.NilEmpty.string_of_int].
    rewrite !string_of_numeral_digit by (Z.div_mod_to_equations; lia).
    reflexivity.
  - Z.div_mod_to_equations; lia.
  - rewrite of_uint_numeral_digit by (Z.div_mod_to_equations; lia).
    rewrite !of_uint_acc_numeral_digit by (Z.div_mod_to_equations; lia).
    cbn [Pos.of_uint_acc]. Z.div_mod_to_equations; lia.
Qed.

Lemma zfill_two_digits (n : Z) :
  0 <= n <= 99 -> PyStr.zfill 2 n = two_digits n.
Proof.
  intros Hn. unfold two_digits. cbn [PyStr.zfill String.append].
  replace (n / 10 mod 10) with (n / 10) by (Z.div_mod_to_equations; lia).
  rewrite !digit_digit_char by (Z.div_mod_to_equations; lia).
  reflexivity.
Qed.

Lemma format_Ym_month_label (y m : Z) :
  0 <= y <= 9999 -> 0 <= m <= 99 -> format_Ym y m = month_label y m.
Proof.
  intros Hy Hm. unfold format_Ym, month_label.
  now rewrite decimal_year_text, zfill_two_digits.
Qed.

Lemma strftime_Ym_month_label (d : datetime) :
  valid_datetime d -> strftime_Ym d = month_label (year d) (month d).
Proof.
  intros (Hy & Hm & _). unfold MINYEAR, MAXYEAR in *.
  apply format_Ym_month_label; lia.
Qed.





End LabelText.

(** ** The trend *)

Section Trend.

Lemma in_range (n j : Z) : In j (range n) <-> 0 <= j < n.
Proof.
  unfold range. rewrite in_map_iff. split.
  - intros (i & <- & Hi). apply in_seq in Hi. lia.
  - intros Hj. exists (Z.to_nat j). split; [lia|]. apply in_seq. lia.
Qed.

Lemma length_range (n : Z) : List.length (range n) = Z.to_nat n.
Proof. unfold range. now rewrite length_map, length_seq. Qed.

Lemma nth_error_range (n : Z) (i : nat) :
  nth_error (range n) i
  = if Z.of_nat i <? n then Some (Z.of_nat i) else None.
Proof.
  unfold range. rewrite nth_error_map.
  destruct (Z.of_nat i <? n) eqn:E; to_prop.
  - rewrite nth_error_seq.
    assert (Hlt : (i <? Z.to_nat n)%nat = true) by (apply Nat.ltb_lt; lia).
    now rewrite Hlt.
  - assert (Hn : nth_error (seq 0 (Z.to_nat n)) i = None).
    { apply nth_error_None. rewrite length_seq. lia. }
    now rewrite Hn.
Qed.

Variable first_tx_date : datetime.
Variables tx_points immutability_points : Z.
Hypothesis first_valid : valid_datetime first_tx_date.

Lemma comprehension_points (xs : list Z) (clk : clock) (k : nat) :
  (forall j, In j xs ->
     0 <= j /\ year first_tx_date * 12 + (month first_tx_date - 1) + j
               <= MAXYEAR * 12 + 11) ->
  comprehension
    (fun i =>
       d <- lift (relativedelta.add first_tx_date i) ;;
       ret (mkpoint (strftime_Ym d)
              (Z.min 100 (50 + Z.min i 25 + tx_points + immutability_points))))
    xs clk k
  = Ok (map (spec_trend_point first_tx_date tx_points immutability_points)
          xs, k).
Proof.
  induction xs as [|x xs IH]; intros Hxs; [reflexivity|].
  cbn [comprehension map].
  destruct (Hxs x (or_introl eq_refl)) as [Hx0 Hxmax].
  destruct (relativedelta_add_ok first_tx_date x first_valid Hx0 Hxmax)
    as (d' & Hadd & Hym & Hv).
  rewrite (bind_ok _ _ clk k
             (spec_trend_point first_tx_date tx_points immutability_points x)
             k).
  - rewrite (bind_ok _ _ clk k
               (map (spec_trend_point first_tx_date tx_points
                       immutability_points) xs) k); [reflexivity|].
    apply IH. intros j Hj. apply Hxs. now right.
  - unfold bind, lift, ret. rewrite Hadd. do 2 f_equal.
    unfold spec_trend_point. rewrite <- Hym. cbn [fst snd].
    now rewrite (strftime_Ym_month_label d' Hv).
Qed.

(** The trend of an age that stays within [datetime]'s range. *)
Lemma history_of_ok (age_months : Z) (clk : clock) (k : nat) :
  (forall j, 0 <= j < age_months ->
     year first_tx_date * 12 + (month first_tx_date - 1) + j
     <= MAXYEAR * 12 + 11) ->
  history_of first_tx_date age_months tx_points immutability_points clk k
  = Ok (map (spec_trend_point first_tx_date tx_points immutability_points)
          (range age_months), k).
Proof.
  intros Hmax. unfold history_of. apply comprehension_points.
  intros j Hj. apply in_range in Hj. split; [lia|]. now apply Hmax.
Qed.

End Trend.

(** ** What a run returns *)

Section Run.

Variable uid : string.
Variable raw : Raw.t.
Variable clk : clock.
Hypothesis clk_valid : forall j, valid_datetime (clk j).
Hypothesis dates_valid : Forall valid_datetime (Raw.tx_dates raw).

Lemma collection_of_some (s : string) :
  collection_of (Some s) = Ok (collection_str s).
Proof.
  unfold collection_of, collection_str, name_has_hash, str_method.
  now destruct (PyStr.truthy s && PyStr.contains "#" s).
Qed.

Lemma collection_of_none : collection_of None = Raise AttributeError.
Proof. reflexivity. Qed.

(** The clock is read once more when no transaction date was found. *)
Lemma first_tx_date_of_run (k : nat) :
  first_tx_date_of (Raw.tx_dates raw) clk k
  = Ok (first_tx_date_at (clk k) (Raw.tx_dates raw),
        match Raw.tx_dates raw with [] => S k | _ :: _ => k end).
Proof. now destruct (Raw.tx_dates raw). Qed.

Lemma first_tx_date_at_valid (k : nat) :
  valid_datetime (first_tx_date_at (clk k) (Raw.tx_dates raw)).
Proof.
  unfold first_tx_date_at.
  destruct (Raw.tx_dates raw) as [|d ds]; [apply clk_valid|].
  now apply py_min_valid.
Qed.

(** With a name, the function returns, after two or three readings of
    the clock. *)
Lemma fetch_hathor_nft_run (s : string) (k : nat) :
  Raw.name raw = Some s ->
  let k1 := match Raw.tx_dates raw with [] => S k | _ :: _ => k end in
  let first := first_tx_date_at (clk k) (Raw.tx_dates raw) in
  fetch_hathor_nft uid raw clk k
  = Ok (report_of uid raw (collection_str s) first
          (age_months_of (clk k1) (clk (S k1)) first),
        S (S k1)).
Proof.
  intros Hname k1 first. unfold fetch_hathor_nft.
  rewrite (bind_ok _ _ clk k (collection_str s) k)
    by (unfold lift; now rewrite Hname, collection_of_some).
  rewrite (bind_ok _ _ clk k first k1) by apply first_tx_date_of_run.
  set (am := age_months_of (clk k1) (clk (S k1)) first).
  rewrite (bind_ok _ _ clk k1 am (S (S k1))) by reflexivity.
  erewrite bind_ok; [reflexivity|].
  apply history_of_ok; [apply first_tx_date_at_valid|].
  intros j Hj.
  pose proof (first_tx_date_at_valid k) as (Hy & Hm & _).
  pose proof (clk_valid k1) as (Hy1 & _).
  pose proof (clk_valid (S k1)) as (_ & Hm2 & _).
  fold first in Hy, Hm. subst am. unfold age_months_of, MINYEAR, MAXYEAR in *.
  lia.
Qed.

(** Without a name, line 62 raises before the clock is read. *)
Lemma fetch_hathor_nft_no_name (k : nat) :
  Raw.name raw = None ->
  fetch_hathor_nft uid raw clk k = Raise AttributeError.
Proof.
  intros Hname. unfold fetch_hathor_nft.
  apply bind_raise. unfold lift. now rewrite Hname.
Qed.

End Run.

(** ** Record normaliser and factor scores *)

Section Substring.

Lemma substring_firstn_skipn (s : string) (n m : nat) :
  String.substring n m s
  = string_of_list_ascii (firstn m (skipn n (list_ascii_of_string s))).
Proof.
  revert n m. induction s as [|a s IH]; intros n m.
  - destruct n, m; reflexivity.
  - destruct n as [|n].
    + destruct m as [|m]; [reflexivity|].
      cbn. now rewrite IH.
    + cbn. apply IH.
Qed.

Lemma length_list_ascii (s : string) :
  List.length (list_ascii_of_string s) = String.length s.
Proof. induction s; cbn; congruence. Qed.

End Substring.

(** C10. For every identifier, of any length, the short id is computed
    without failure and is the first 8 characters (all of them when there
    are fewer), three dots, and the last 8 characters (again all of them
    when there are fewer); the two parts overlap when the identifier is
    shorter than 16 characters. *)
Theorem token_id_any_length (uid : string) :
  let cs := list_ascii_of_string uid in
  token_id uid
  = string_of_list_ascii (firstn 8 cs) ++ "..."
    ++ string_of_list_ascii (skipn (List.length cs - 8) cs).
Proof.
  intros cs. unfold token_id. f_equal; [|f_equal].
  - unfold PyStr.slice, PyStr.adjust, PyStr.len.
    assert (Hlen : List.length cs = String.length uid)
      by apply length_list_ascii.
    change (8 <? 0) with false. cbv iota.
    destruct (8 >=? Z.of_nat (String.length uid)) eqn:E; to_prop.
    + destruct (0 <? Z.of_nat (String.length uid)) eqn:E0; to_prop.
      * rewrite substring_firstn_skipn. fold cs.
        change (Z.to_nat 0) with 0%nat. cbn [skipn]. f_equal.
        rewrite Z.sub_0_r, Nat2Z.id.
        rewrite !firstn_all2; [reflexivity|lia|lia].
      * assert (H0 : String.length uid = 0%nat) by lia.
        destruct uid; [reflexivity|discriminate].
    + change (0 <? 8) with true. cbv iota.
      rewrite substring_firstn_skipn. reflexivity.
  - unfold PyStr.slice, PyStr.adjust, PyStr.len.
    assert (Hlen : List.length cs = String.length uid)
      by apply length_list_ascii.
    change (-8 <? 0) with true. cbv iota.
    set (n := Z.of_nat (String.length uid)) in *.
    destruct (-8 + n <? 0) eqn:E; to_prop.
    + replace (List.length cs - 8)%nat with 0%nat by lia.
      destruct (0 <? n) eqn:E0; to_prop.
      * rewrite substring_firstn_skipn. fold cs.
        change (Z.to_nat 0) with 0%nat. cbn [skipn]. f_equal.
        apply firstn_all2. lia.
      * assert (H0 : String.length uid = 0%nat) by lia.
        destruct uid; [reflexivity|discriminate].
    + assert (Hlt : (-8 + n <? n) = true) by (apply Z.ltb_lt; lia).
      rewrite Hlt, substring_firstn_skipn. fold cs. f_equal.
      replace (Z.to_nat (-8 + n)) with (List.length cs - 8)%nat by lia.
      apply firstn_all2. rewrite length_skipn. lia.
Qed.

(** C4. The token is verified exactly when it can be neither minted nor
    melted; the immutability score is 25 exactly when it is verified, 12
    exactly when one flag is set and the other not, and 0 exactly when
    both are set. *)
Theorem verified_and_immutability (canMint canMelt : bool) :
  (verified_of canMint canMelt = true <-> canMint = false /\ canMelt = false)
  /\ (immutability_points_of canMint canMelt = 25
      <-> verified_of canMint canMelt = true)
  /\ (immutability_points_of canMint canMelt = 12 <-> canMint <> canMelt)
  /\ (immutability_points_of canMint canMelt = 0
      <-> canMint = true /\ canMelt = true).
Proof.
  destruct canMint, canMelt; cbn; repeat split;
    intros; try discriminate; try congruence; try tauto;
    try (exfalso; intuition congruence).
Qed.

(** C5. For a transaction count [n >= 0] the transaction score is
    [min(2n, 25)]; it does not decrease when the count grows, and it is 25
    exactly from 13 transactions on. *)
Theorem tx_points_saturating (n m : Z) (Hn : 0 <= n) (Hnm : n <= m) :
  tx_points_of n = Z.min (2 * n) 25
  /\ tx_points_of n <= tx_points_of m
  /\ (tx_points_of n = 25 <-> 13 <= n).
Proof. unfold tx_points_of. lia. Qed.

Lemma tx_points_saturating_witness :
  tx_points_of 13 = Z.min (2 * 13) 25
  /\ tx_points_of 13 <= tx_points_of 14
  /\ (tx_points_of 13 = 25 <-> 13 <= 13).
Proof. apply (tx_points_saturating 13 14); lia. Defined.

(** ** Age calculator *)

(** C6. With the clock held at [today]: the first transaction date is the
    least of the transaction dates when there is one and [today]
    otherwise; the age in months is
    [max(1, (today.year - first.year) * 12 + today.month - first.month)],
    so at least 1; and the age score is [min(ageMonths, 25)]. *)
Theorem age_calculator (tx_dates : list datetime) (today : datetime) (k : nat) :
  exists first_tx_date age_months k1 k2,
    first_tx_date_of tx_dates (fixed today) k = Ok (first_tx_date, k1)
    /\ age_months_step first_tx_date (fixed today) k1 = Ok (age_months, k2)
    /\ match tx_dates with
       | [] => first_tx_date = today
       | _ :: _ =>
           In first_tx_date tx_dates
           /\ Forall (fun d => datetime_leb first_tx_date d = true) tx_dates
       end
    /\ age_months
       = Z.max 1 ((year today - year first_tx_date) * 12
                  + month today - month first_tx_date)
    /\ 1 <= age_months
    /\ age_points_of age_months = Z.min age_months 25.
Proof.
  destruct tx_dates as [|d ds].
  - exists today, (age_months_of today today today), (S k), (S (S (S k))).
    repeat split; try reflexivity. unfold age_months_of. lia.
  - exists (py_min d ds), (age_months_of today today (py_min d ds)),
      k, (S (S k)).
    repeat split; try reflexivity; try apply py_min_spec.
    unfold age_months_of. lia.
Qed.

(** ** The whole report *)

Lemma today_example_valid : valid_datetime today_example.
Proof. unfold valid_datetime, MINYEAR, MAXYEAR. cbn. lia. Qed.

Lemma fixed_valid (today : datetime) :
  valid_datetime today -> forall j, valid_datetime (fixed today j).
Proof. intros H j. exact H. Qed.

Lemma raw_aged_dates_valid : Forall valid_datetime (Raw.tx_dates raw_aged).
Proof.
  repeat constructor; unfold MINYEAR, MAXYEAR; cbn; lia.
Qed.

Lemma immutability_points_range (canMint canMelt : bool) :
  0 <= immutability_points_of canMint canMelt <= 25.
Proof. destruct canMint, canMelt; cbn; lia. Qed.

(** C1. Whenever a report is returned, its score is
    [min(100, 50 + ageScore + txScore + immutabilityScore)] for the three
    factor scores of the report, and lies between 50 and 100; a report is
    returned for every record but one without a name. *)
Theorem score_formula_and_bounds (uid : string) (raw : Raw.t) (clk : clock)
    (k : nat)
    (Hclk : forall j, valid_datetime (clk j))
    (Hdates : Forall valid_datetime (Raw.tx_dates raw)) :
  match value (fetch_hathor_nft uid raw clk k) with
  | Ok rep =>
      exists ageScore txScore immutabilityScore,
        map factor_score (factors (trustScoreData_ rep))
        = [ageScore; txScore; immutabilityScore]
        /\ ageScore
           = age_points_of
               (Z.of_nat (List.length (history (trustScoreData_ rep))))
        /\ txScore = tx_points_of (Z.of_nat (List.length (Raw.tx_hashes raw)))
        /\ immutabilityScore
           = immutability_points_of (Raw.canMint raw) (Raw.canMelt raw)
        /\ trustScore rep
           = Z.min 100 (50 + ageScore + txScore + immutabilityScore)
        /\ tsd_score (trustScoreData_ rep) = trustScore rep
        /\ 50 <= trustScore rep <= 100
  | Raise _ => Raw.name raw = None
  end.
Proof.
  destruct (Raw.name raw) as [s|] eqn:Hname.
  - rewrite (fetch_hathor_nft_run uid raw clk Hclk Hdates s k Hname).
    cbn [value].
    set (first := first_tx_date_at (clk k) (Raw.tx_dates raw)).
    set (k1 := match Raw.tx_dates raw with [] => S k | _ :: _ => k end).
    set (am := age_months_of (clk k1) (clk (S k1)) first).
    assert (Ham : 1 <= am) by (subst am; unfold age_months_of; lia).
    eexists _, _, _. split; [reflexivity|].
    cbn [report_of trustScoreData_ history trustScore tsd_score].
    rewrite length_map, length_range, Z2Nat.id by lia.
    pose proof (immutability_points_range (Raw.canMint raw) (Raw.canMelt raw)).
    repeat split; try reflexivity;
      unfold score_of, age_points_of, tx_points_of; lia.
  - rewrite (fetch_hathor_nft_no_name uid raw clk k Hname). reflexivity.
Qed.

Lemma score_formula_and_bounds_witness :
  match value (fetch_hathor_nft uid_example raw_aged (fixed today_example) 0%nat) with
  | Ok rep =>
      exists ageScore txScore immutabilityScore,
        map factor_score (factors (trustScoreData_ rep))
        = [ageScore; txScore; immutabilityScore]
        /\ ageScore
           = age_points_of
               (Z.of_nat (List.length (history (trustScoreData_ rep))))
        /\ txScore
           = tx_points_of (Z.of_nat (List.length (Raw.tx_hashes raw_aged)))
        /\ immutabilityScore
           = immutability_points_of (Raw.canMint raw_aged)
               (Raw.canMelt raw_aged)
        /\ trustScore rep
           = Z.min 100 (50 + ageScore + txScore + immutabilityScore)
        /\ tsd_score (trustScoreData_ rep) = trustScore rep
        /\ 50 <= trustScore rep <= 100
  | Raise _ => Raw.name raw_aged = None
  end.
Proof.
  apply (score_formula_and_bounds uid_example raw_aged (fixed today_example) 0%nat).
  - intros j. unfold fixed, today_example, valid_datetime, MINYEAR, MAXYEAR.
    cbn. lia.
  - repeat constructor; unfold MINYEAR, MAXYEAR; cbn; lia.
Defined.




(** C8, amended. For a record with minting and melting disabled, no
    transaction, and a first transaction date equal to today (so that the
    age is one month), a returned report has score 76 (50 + 1 + 0 + 25),
    is verified, and has the strengths ["Strong immutability"] and the
    concerns ["Low age"]; a report is returned unless the name is
    absent. *)
Theorem fresh_immutable_token (uid : string) (raw : Raw.t) (today : datetime)
    (k : nat)
    (Hmint : Raw.canMint raw = false)
    (Hmelt : Raw.canMelt raw = false)
    (Hhashes : Raw.tx_hashes raw = [])
    (Hfirst : first_tx_date_at today (Raw.tx_dates raw) = today)
    (Htoday : valid_datetime today)
    (Hdates : Forall valid_datetime (Raw.tx_dates raw)) :
  match value (fetch_hathor_nft uid raw (fixed today) k) with
  | Ok rep =>
      trustScore rep = 76
      /\ verified rep = true
      /\ strengths (trustScoreData_ rep) = [Some "Strong immutability"]
      /\ concerns (trustScoreData_ rep) = [Some "Low age"]
  | Raise _ => Raw.name raw = None
  end.
Proof.
  destruct (Raw.name raw) as [s|] eqn:Hname.
  - rewrite (fetch_hathor_nft_run uid raw (fixed today)
               (fixed_valid today Htoday) Hdates s k Hname).
    cbn [value]. unfold fixed. rewrite Hfirst.
    assert (Ham : age_months_of today today today = 1)
      by (unfold age_months_of; lia).
    rewrite Ham. unfold report_of. rewrite Hmint, Hmelt, Hhashes.
    cbn. repeat split; reflexivity.
  - rewrite (fetch_hathor_nft_no_name uid raw (fixed today) k Hname).
    reflexivity.
Qed.

Lemma fresh_immutable_token_witness :
  match value (fetch_hathor_nft uid_example raw_fresh (fixed today_example) 0%nat) with
  | Ok rep =>
      trustScore rep = 76
      /\ verified rep = true
      /\ strengths (trustScoreData_ rep) = [Some "Strong immutability"]
      /\ concerns (trustScoreData_ rep) = [Some "Low age"]
  | Raise _ => Raw.name raw_fresh = None
  end.
Proof.
  apply (fresh_immutable_token uid_example raw_fresh today_example 0%nat);
    try reflexivity.
  - exact today_example_valid.
  - constructor.
Defined.

(** C8 as stated fails: on the fresh token the score is 76, not 75. *)
Lemma fresh_immutable_token_not_75 :
  exists rep,
    value (fetch_hathor_nft uid_example raw_fresh (fixed today_example) 0%nat)
    = Ok rep
    /\ Raw.canMint raw_fresh = false /\ Raw.canMelt raw_fresh = false
    /\ Raw.tx_hashes raw_fresh = []
    /\ first_tx_date_at today_example (Raw.tx_dates raw_fresh) = today_example
    /\ verified rep = true
    /\ strengths (trustScoreData_ rep) = [Some "Strong immutability"]
    /\ concerns (trustScoreData_ rep) = [Some "Low age"]
    /\ trustScore rep <> 75.
Proof.
  eexists. split; [vm_compute; reflexivity|].
  repeat split; try reflexivity. cbn. discriminate.
Qed.

(** ** Determinism at a fixed instant *)

Section FixedInstant.

(** The trend reads no clock: its outcome does not depend on the clock
    or on the readings made before. *)
Lemma comprehension_lift_pure {A B C} (g : A -> result B) (h : A -> B -> C)
    (xs : list A) :
  exists r : result (list C),
    forall clk k,
      comprehension (fun i => d <- lift (g i) ;; ret (h i d)) xs clk k
      = match r with Ok l => Ok (l, k) | Raise e => Raise e end.
Proof.
  induction xs as [|x xs [r IH]].
  - exists (Ok []). reflexivity.
  - destruct (g x) as [b|e] eqn:Hg.
    + destruct r as [l|e].
      * exists (Ok (h x b :: l)). intros clk k. cbn [comprehension].
        unfold bind, lift, ret in *. rewrite Hg, IH. reflexivity.
      * exists (Raise e). intros clk k. cbn [comprehension].
        unfold bind, lift, ret in *. rewrite Hg, IH. reflexivity.
    + exists (Raise e). intros clk k. cbn [comprehension].
      unfold bind, lift. rewrite Hg. reflexivity.
Qed.

Lemma fetch_hathor_nft_fixed (uid : string) (raw : Raw.t) (today : datetime)
    (k : nat) :
  value (fetch_hathor_nft uid raw (fixed today) k)
  = value (fetch_hathor_nft uid raw (fixed today) 0%nat).
Proof.
  unfold fetch_hathor_nft.
  destruct (collection_of (Raw.name raw)) as [c|e]; [|reflexivity].
  set (first := first_tx_date_at today (Raw.tx_dates raw)).
  set (am := age_months_of today today first).
  destruct (comprehension_lift_pure
              (relativedelta.add first)
              (fun i d =>
                 mkpoint (strftime_Ym d)
                   (Z.min 100
                      (50 + Z.min i 25
                       + tx_points_of
                           (Z.of_nat (List.length (Raw.tx_hashes raw)))
                       + immutability_points_of (Raw.canMint raw)
                           (Raw.canMelt raw))))
              (range am)) as [r Hr].
  assert (Hrun : forall j,
    exists j',
      forall (f : datetime -> Py nftData),
        bind (first_tx_date_of (Raw.tx_dates raw)) f (fixed today) j
        = f first (fixed today) j').
  { intros j. subst first. destruct (Raw.tx_dates raw); eexists; reflexivity. }
  rewrite (bind_ok _ _ (fixed today) k c k) by reflexivity.
  rewrite (bind_ok _ _ (fixed today) 0%nat c 0%nat) by reflexivity.
  destruct (Hrun k) as [k1 ->]. destruct (Hrun 0%nat) as [k0 ->].
  rewrite (bind_ok _ _ (fixed today) k1 am (S (S k1))) by reflexivity.
  rewrite (bind_ok _ _ (fixed today) k0 am (S (S k0))) by reflexivity.
  unfold history_of, bind. rewrite !Hr.
  destruct r; reflexivity.
Qed.

End FixedInstant.

(** C9. Two invocations on the same identifier and record whose clocks both
    show the same instant [today], however many times each clock was read
    before, produce the same outcome: the same report, or the same
    exception. *)
Theorem deterministic_at_fixed_instant (uid : string) (raw : Raw.t)
    (today : datetime) (k1 k2 : nat) :
  value (fetch_hathor_nft uid raw (fixed today) k1)
  = value (fetch_hathor_nft uid raw (fixed today) k2).
Proof.
  rewrite (fetch_hathor_nft_fixed uid raw today k1).
  now rewrite (fetch_hathor_nft_fixed uid raw today k2).
Qed.

(** ** Collection name and qualitative labels *)

Section Collection.

Lemma contains_truthy (c : ascii) (s : string) :
  PyStr.truthy s && PyStr.contains c s = PyStr.contains c s.
Proof. now destruct s. Qed.

Lemma split_nonempty (c : ascii) (s : string) : PyStr.split c s <> [].
Proof.
  destruct s as [|a s]; cbn; [discriminate|].
  destruct (Ascii.eqb a c); [discriminate|].
  destruct (PyStr.split c s); discriminate.
Qed.

(** The first field of [split] is the text before the first
    separator. *)
Lemma split_head (c : ascii) (s : string) :
  nth 0 (PyStr.split c s) "" = before_first c s.
Proof.
  induction s as [|a s IH]; [reflexivity|]. cbn.
  destruct (Ascii.eqb a c); [reflexivity|].
  destruct (PyStr.split c s) as [|f fs] eqn:E.
  - now apply split_nonempty in E.
  - cbn in *. now rewrite IH.
Qed.

(** With a name: the text before the first [#], trimmed, when there is a
    [#]; the trimmed name otherwise. *)
Lemma collection_str_spec (s : string) :
  collection_str s
  = if PyStr.contains "#" s then PyStr.strip (before_first "#" s)
    else PyStr.strip s.
Proof.
  unfold collection_str. now rewrite contains_truthy, split_head.
Qed.

(** [strengths] holds the labels whose condition is met, in the fixed
    order, and no placeholder. *)
Lemma strengths_of_spec (immutability_points tx_points : Z) :
  strengths_of immutability_points tx_points
  = ((if immutability_points =? 25 then [Some "Strong immutability"] else [])
     ++ (if tx_points >=? 20 then [Some "Good transaction history"] else [])
    )%list.
Proof.
  unfold strengths_of.
  now destruct (immutability_points =? 25), (tx_points >=? 20).
Qed.

(** [concerns] is not filtered: from 5 age points on it holds the
    placeholder. *)
Lemma concerns_of_spec (age_points : Z) :
  concerns_of age_points
  = if age_points <? 5 then [Some "Low age"] else [None].
Proof. unfold concerns_of. now destruct (age_points <? 5). Qed.

End Collection.

(** C2. On a record without a name line 62 raises [AttributeError]: the
    guard [name and '#' in name] is false for [None], and the other branch
    calls [name.strip()]. No report is returned. *)
Theorem absent_name_raises (uid : string) (raw : Raw.t) (clk : clock)
    (k : nat) (Hname : Raw.name raw = None) :
  fetch_hathor_nft uid raw clk k = Raise AttributeError.
Proof. now apply fetch_hathor_nft_no_name. Qed.

Lemma absent_name_raises_witness :
  fetch_hathor_nft uid_example raw_no_name (fixed today_example) 0%nat
  = Raise AttributeError.
Proof.
  apply (absent_name_raises uid_example raw_no_name (fixed today_example) 0%nat).
  reflexivity.
Defined.

(** C3. On a token that is six months old the list of concerns is
    [[None]]: the placeholder of the absent "Low age" entry is kept, where
    the list of strengths is filtered. *)
Theorem concerns_keep_placeholder :
  exists rep,
    value (fetch_hathor_nft uid_example raw_aged (fixed today_example) 0%nat)
    = Ok rep
    /\ map factor_score (factors (trustScoreData_ rep)) = [6; 4; 0]
    /\ strengths (trustScoreData_ rep) = []
    /\ concerns (trustScoreData_ rep) = [None].
Proof. eexists. split; [vm_compute; reflexivity|]. now cbn. Qed.

(** * Further properties of the code *)

(** ** Strings: [strip], [split] and slices (source lines 61-62) *)

Section Strip.

Lemma lstrip_spec (s : string) :
  exists l,
    all_space l = true /\ s = l ++ PyStr.lstrip s
    /\ starts_with_space (PyStr.lstrip s) = false.
Proof.
  induction s as [|a s (l & Hl & Hs & Hstart)].
  - now exists "".
  - cbn [PyStr.lstrip]. destruct (PyStr.isspace a) eqn:Ea.
    + exists (String a l). cbn. rewrite Ea, Hl. repeat split; [|exact Hstart].
      now rewrite <- Hs.
    + exists "". cbn. now rewrite Ea.
Qed.

Lemma rstrip_spec (s : string) :
  exists r,
    all_space r = true /\ s = PyStr.rstrip s ++ r
    /\ ends_with_space (PyStr.rstrip s) = false.
Proof.
  induction s as [|a s (r & Hr & Hs & Hend)].
  - now exists "".
  - cbn [PyStr.rstrip]. destruct (PyStr.rstrip s) as [|b t] eqn:E.
    + cbn in Hs. subst r. destruct (PyStr.isspace a) eqn:Ea.
      * exists (String a s). cbn. now rewrite Ea, Hr.
      * exists s. cbn. now rewrite Ea.
    + exists r. repeat split; [exact Hr| |exact Hend].
      cbn. cbn in Hs. now rewrite <- Hs.
Qed.

Lemma rstrip_keeps_start (s : string) :
  starts_with_space s = false -> starts_with_space (PyStr.rstrip s) = false.
Proof.
  destruct s as [|a s]; [reflexivity|]. cbn. intros Ea.
  destruct (PyStr.rstrip s); [|exact Ea]. now rewrite Ea.
Qed.

Lemma all_space_app (l r : string) :
  all_space (l ++ r) = all_space l && all_space r.
Proof.
  induction l as [|a l IH]; [reflexivity|].
  cbn. now rewrite IH, andb_assoc.
Qed.

Lemma append_assoc (a b c : string) : (a ++ b) ++ c = a ++ (b ++ c).
Proof. induction a as [|x a IH]; cbn; [reflexivity|now rewrite IH]. Qed.

Lemma append_empty_r (a : string) : a ++ "" = a.
Proof. induction a as [|x a IH]; cbn; [reflexivity|now rewrite IH]. Qed.

Lemma all_space_rstrip (s : string) :
  all_space s = true -> PyStr.rstrip s = "".
Proof.
  induction s as [|a s IH]; [reflexivity|]. cbn.
  intros H. apply andb_true_iff in H as [Ea Hs].
  now rewrite (IH Hs), Ea.
Qed.

Lemma rstrip_empty_all_space (s : string) :
  PyStr.rstrip s = "" -> all_space s = true.
Proof.
  induction s as [|a s IH]; [reflexivity|]. cbn.
  destruct (PyStr.rstrip s) eqn:E; [|discriminate].
  destruct (PyStr.isspace a); [|discriminate].
  intros _. now rewrite IH.
Qed.

Lemma strip_parts (s : string) :
  exists l r,
    all_space l = true /\ all_space r = true /\ s = l ++ PyStr.strip s ++ r.
Proof.
  unfold PyStr.strip.
  destruct (lstrip_spec s) as (l & Hl & Hs & _).
  destruct (rstrip_spec (PyStr.lstrip s)) as (r & Hr & Hls & _).
  exists l, r. repeat split; try assumption. now rewrite <- Hls.
Qed.

Lemma strip_ends (s : string) :
  starts_with_space (PyStr.strip s) = false
  /\ ends_with_space (PyStr.strip s) = false.
Proof.
  unfold PyStr.strip.
  destruct (lstrip_spec s) as (l & _ & _ & Hstart).
  destruct (rstrip_spec (PyStr.lstrip s)) as (r & _ & _ & Hend).
  split; [now apply rstrip_keeps_start|exact Hend].
Qed.

End Strip.

(** X1. [s.strip()] is [s] without a run of whitespace at its start and a
    run of whitespace at its end, and itself neither starts nor ends with
    whitespace. *)
Theorem strip_decomposition (s : string) :
  exists l r,
    all_space l = true /\ all_space r = true
    /\ s = l ++ PyStr.strip s ++ r
    /\ starts_with_space (PyStr.strip s) = false
    /\ ends_with_space (PyStr.strip s) = false.
Proof.
  unfold PyStr.strip.
  destruct (lstrip_spec s) as (l & Hl & Hs & Hstart).
  destruct (rstrip_spec (PyStr.lstrip s)) as (r & Hr & Hls & Hend).
  exists l, r. repeat split; try assumption.
  - now rewrite <- Hls.
  - now apply rstrip_keeps_start.
Qed.

Section Split.

Variable sep : ascii.

Lemma before_first_free (s : string) :
  PyStr.contains sep (before_first sep s) = false.
Proof.
  induction s as [|a s IH]; [reflexivity|]. cbn.
  destruct (Ascii.eqb a sep) eqn:E; [reflexivity|]. cbn. now rewrite E.
Qed.

Lemma split_fields_free (s : string) :
  Forall (fun f => PyStr.contains sep f = false) (PyStr.split sep s).
Proof.
  induction s as [|a s IH]; cbn.
  - now repeat constructor.
  - destruct (Ascii.eqb a sep) eqn:E; [now constructor|].
    destruct (PyStr.split sep s) as [|f fs].
    + repeat constructor. cbn. now rewrite E.
    + inversion IH as [|? ? Hf Hfs]; subst. constructor; [|exact Hfs].
      cbn. now rewrite E.
Qed.

Lemma join_split (s : string) : join sep (PyStr.split sep s) = s.
Proof.
  induction s as [|a s IH]; [reflexivity|]. cbn [PyStr.split].
  destruct (Ascii.eqb a sep) eqn:E.
  - apply Ascii.eqb_eq in E. subst a.
    destruct (PyStr.split sep s) as [|f fs] eqn:Es.
    + now apply split_nonempty in Es.
    + change (join sep ("" :: f :: fs))
        with ("" ++ String sep (join sep (f :: fs))).
      cbn [append]. now rewrite IH.
  - destruct (PyStr.split sep s) as [|f fs] eqn:Es.
    + now apply split_nonempty in Es.
    + destruct fs as [|g fs]; cbn [join append] in *; now rewrite IH.
Qed.

Lemma length_split (s : string) :
  List.length (PyStr.split sep s) = S (count_char sep s).
Proof.
  induction s as [|a s IH]; [reflexivity|]. cbn.
  destruct (Ascii.eqb a sep); cbn; [now rewrite IH|].
  destruct (PyStr.split sep s) as [|f fs] eqn:Es;
    [now apply split_nonempty in Es|]. exact IH.
Qed.

End Split.

(** X2. [s.split(sep)] cuts [s] at every separator: there is one field
    more than there are separators in [s], no field contains the
    separator, and joining the fields with the separator gives [s]
    back. *)
Theorem split_round_trip (sep : ascii) (s : string) :
  join sep (PyStr.split sep s) = s
  /\ List.length (PyStr.split sep s) = S (count_char sep s)
  /\ Forall (fun f => PyStr.contains sep f = false) (PyStr.split sep s).
Proof.
  split; [apply join_split|]. split; [apply length_split|].
  apply split_fields_free.
Qed.

Section Slices.

Lemma string_of_list_ascii_app (l1 l2 : list ascii) :
  string_of_list_ascii (l1 ++ l2)%list
  = string_of_list_ascii l1 ++ string_of_list_ascii l2.
Proof. induction l1 as [|a l1 IH]; cbn; [reflexivity|now rewrite IH]. Qed.

Lemma length_string_of_list_ascii (l : list ascii) :
  String.length (string_of_list_ascii l) = List.length l.
Proof. induction l; cbn; congruence. Qed.

Lemma length_append (a b : string) :
  String.length (a ++ b) = (String.length a + String.length b)%nat.
Proof. induction a as [|x a IH]; cbn; [reflexivity|now rewrite IH]. Qed.

Lemma adjust_range (n i : Z) : 0 <= n -> 0 <= PyStr.adjust n i <= n.
Proof.
  intros Hn. unfold PyStr.adjust.
  destruct (i <? 0) eqn:E0.
  - destruct (i + n <? 0) eqn:E1; to_prop; lia.
  - destruct (i >=? n) eqn:E1; to_prop; lia.
Qed.

(** A slice with step 1 in terms of lists: drop up to the lower bound,
    keep up to the upper one. *)
Lemma slice_firstn_skipn (s : string) (start stop : option Z) :
  let n := PyStr.len s in
  let lo := match start with Some i => PyStr.adjust n i | None => 0 end in
  let hi := match stop with Some i => PyStr.adjust n i | None => n end in
  PyStr.slice s start stop
  = string_of_list_ascii
      (firstn (Z.to_nat (hi - lo))
         (skipn (Z.to_nat lo) (list_ascii_of_string s))).
Proof.
  intros n lo hi. unfold PyStr.slice. fold n lo hi.
  destruct (lo <? hi) eqn:E; to_prop.
  - apply substring_firstn_skipn.
  - replace (Z.to_nat (hi - lo)) with 0%nat by lia. reflexivity.
Qed.

End Slices.

(** X3. For every string and every index, negative or out of range
    included, the slices [s[:i]] and [s[i:]] put together give [s]. *)
Theorem slice_prefix_suffix (s : string) (i : Z) :
  PyStr.slice s None (Some i) ++ PyStr.slice s (Some i) None = s.
Proof.
  rewrite !slice_firstn_skipn. cbv zeta.
  set (n := PyStr.len s). set (a := PyStr.adjust n i).
  assert (Hn : 0 <= n) by (subst n; unfold PyStr.len; lia).
  pose proof (adjust_range n i Hn) as Ha. fold a in Ha.
  rewrite <- string_of_list_ascii_app.
  change (Z.to_nat 0) with 0%nat. cbn [skipn]. rewrite Z.sub_0_r.
  set (l := list_ascii_of_string s).
  assert (Hl : List.length l = Z.to_nat n).
  { subst l n. unfold PyStr.len. rewrite length_list_ascii. lia. }
  rewrite (firstn_all2 (n := Z.to_nat (n - a)))
    by (rewrite length_skipn; lia).
  rewrite firstn_skipn. apply string_of_list_ascii_of_string.
Qed.

(** X4. The short id has [3 + 2 * min(8, len(uid))] characters, so never
    more than 19; an identifier of at most 8 characters appears in it
    whole, twice, and a longer one gives exactly 19 characters. *)
Theorem token_id_length (uid : string) :
  PyStr.len (token_id uid) = 3 + 2 * Z.min 8 (PyStr.len uid)
  /\ if PyStr.len uid <=? 8
     then token_id uid = uid ++ "..." ++ uid
     else PyStr.len (token_id uid) = 19.
Proof.
  unfold token_id. rewrite !slice_firstn_skipn. cbv zeta.
  set (n := PyStr.len uid).
  assert (Hn : 0 <= n) by (subst n; unfold PyStr.len; lia).
  set (l := list_ascii_of_string uid).
  assert (Hl : List.length l = Z.to_nat n).
  { subst l n. unfold PyStr.len. rewrite length_list_ascii. lia. }
  change (Z.to_nat 0) with 0%nat. cbn [skipn].
  assert (H8 : PyStr.adjust n 8 = Z.min 8 n).
  { unfold PyStr.adjust. change (8 <? 0) with false. cbv iota.
    destruct (8 >=? n) eqn:E; to_prop; lia. }
  assert (Hm8 : PyStr.adjust n (-8) = Z.max 0 (n - 8)).
  { unfold PyStr.adjust. change (-8 <? 0) with true. cbv iota.
    destruct (-8 + n <? 0) eqn:E; to_prop; lia. }
  rewrite H8, Hm8.
  assert (Hlen : PyStr.len
                   (string_of_list_ascii (firstn (Z.to_nat (Z.min 8 n - 0)) l)
                    ++ "..."
                    ++ string_of_list_ascii
                         (firstn (Z.to_nat (n - Z.max 0 (n - 8)))
                            (skipn (Z.to_nat (Z.max 0 (n - 8))) l)))
                 = 3 + 2 * Z.min 8 n).
  { unfold PyStr.len.
    rewrite !length_append, !length_string_of_list_ascii.
    rewrite !length_firstn, length_skipn. cbn [String.length]. lia. }
  split; [exact Hlen|].
  destruct (n <=? 8) eqn:Hle; to_prop.
  - replace (Z.to_nat (Z.max 0 (n - 8))) with 0%nat by lia. cbn [skipn].
    rewrite !firstn_all2 by lia.
    subst l. now rewrite string_of_list_ascii_of_string.
  - rewrite Hlen. lia.
Qed.

(** ** The collection name (source line 62) *)

Section CollectionShape.

Lemma contains_app (c : ascii) (a b : string) :
  PyStr.contains c (a ++ b) = PyStr.contains c a || PyStr.contains c b.
Proof.
  induction a as [|x a IH]; [reflexivity|]. cbn.
  now destruct (Ascii.eqb x c).
Qed.

Lemma before_first_whole (c : ascii) (s : string) :
  PyStr.contains c s = false -> before_first c s = s.
Proof.
  induction s as [|a s IH]; [reflexivity|]. cbn.
  destruct (Ascii.eqb a c); [discriminate|]. intros H. now rewrite IH.
Qed.

Lemma strip_free (c : ascii) (s : string) :
  PyStr.contains c s = false -> PyStr.contains c (PyStr.strip s) = false.
Proof.
  intros H. destruct (strip_parts s) as (l & r & _ & _ & Hs).
  rewrite Hs, !contains_app in H.
  apply orb_false_iff in H as [_ H]. now apply orb_false_iff in H as [H _].
Qed.

Lemma strip_empty_iff (s : string) :
  PyStr.strip s = "" <-> all_space s = true.
Proof.
  unfold PyStr.strip.
  destruct (lstrip_spec s) as (l & Hl & Hs & _).
  assert (Hall : all_space s = all_space (PyStr.lstrip s)).
  { rewrite Hs at 1. now rewrite all_space_app, Hl. }
  rewrite Hall. split; [apply rstrip_empty_all_space|apply all_space_rstrip].
Qed.

(** Whether the name holds a [#] or not, the collection is the trimmed
    text before the first [#]. *)
Lemma collection_str_before_first (s : string) :
  collection_str s = PyStr.strip (before_first "#" s).
Proof.
  rewrite collection_str_spec.
  destruct (PyStr.contains "#" s) eqn:E; [reflexivity|].
  now rewrite before_first_whole.
Qed.

End CollectionShape.

(** X5. With a clock and dates in [datetime]'s range, the collection of a
    returned report is the text of the name before its first [#],
    trimmed: it holds no [#] and neither starts nor ends with whitespace.
    No report is returned only when the name is absent. *)
Theorem report_collection (uid : string) (raw : Raw.t) (clk : clock) (k : nat)
    (Hclk : forall j, valid_datetime (clk j))
    (Hdates : Forall valid_datetime (Raw.tx_dates raw)) :
  match value (fetch_hathor_nft uid raw clk k) with
  | Ok rep =>
      exists s,
        Raw.name raw = Some s
        /\ collection rep = PyStr.strip (before_first "#" s)
        /\ PyStr.contains "#" (collection rep) = false
        /\ starts_with_space (collection rep) = false
        /\ ends_with_space (collection rep) = false
  | Raise _ => Raw.name raw = None
  end.
Proof.
  destruct (Raw.name raw) as [s|] eqn:Hname.
  - rewrite (fetch_hathor_nft_run uid raw clk Hclk Hdates s k Hname).
    cbn [value report_of collection]. exists s.
    rewrite collection_str_before_first.
    destruct (strip_parts (before_first "#" s)) as (l & r & _ & _ & _).
    destruct (strip_ends (before_first "#" s)) as [Hstart Hend].
    repeat split; try assumption.
    apply strip_free, before_first_free.
  - now rewrite (fetch_hathor_nft_no_name uid raw clk k Hname).
Qed.

Lemma report_collection_witness :
  match value (fetch_hathor_nft uid_example raw_aged (fixed today_example) 0%nat) with
  | Ok rep =>
      exists s,
        Raw.name raw_aged = Some s
        /\ collection rep = PyStr.strip (before_first "#" s)
        /\ PyStr.contains "#" (collection rep) = false
        /\ starts_with_space (collection rep) = false
        /\ ends_with_space (collection rep) = false
  | Raise _ => Raw.name raw_aged = None
  end.
Proof.
  exact (report_collection uid_example raw_aged (fixed today_example) 0%nat
           (fixed_valid today_example today_example_valid)
           raw_aged_dates_valid).
Defined.

(** X6. A name that is present never makes line 62 raise, the empty name
    included, and its collection is empty exactly when the name has only
    whitespace before its first [#] (or only whitespace at all). *)
Theorem collection_empty_iff (s : string) :
  exists c,
    collection_of (Some s) = Ok c
    /\ (c = "" <-> all_space (before_first "#" s) = true).
Proof.
  exists (collection_str s). split; [apply collection_of_some|].
  rewrite collection_str_before_first. apply strip_empty_iff.
Qed.

(** ** Adding months to a date (source line 89) *)

Section AddMonthsExact.

Variable dt : datetime.
Variable n : Z.
Hypothesis dt_valid : valid_datetime dt.
Hypothesis n_nonneg : 0 <= n.

(** The year and month that [relativedelta] computes are those of the
    calendar, whatever the range. *)
Lemma add_replace :
  relativedelta.add dt n
  = datetime_replace dt
      (fst (calendar_add_months dt n)) (snd (calendar_add_months dt n))
      (Z.min (days_in_month (fst (calendar_add_months dt n))
                (snd (calendar_add_months dt n)))
             (day dt)).
Proof.
  destruct dt_valid as (Hy & Hm & Hd). unfold MINYEAR, MAXYEAR in *.
  destruct (fix_nonneg n n_nonneg) as (q & r & Hfix & Hqr & Hr & Hq).
  unfold relativedelta.add. rewrite Hfix.
  set (ym := if r =? 0 then (year dt + q, month dt)
             else if month dt + r >? 12
                  then (year dt + q + 1, month dt + r - 12)
                  else if month dt + r <? 1
                       then (year dt + q - 1, month dt + r + 12)
                       else (year dt + q, month dt + r)).
  assert (Hym : 1 <= snd ym <= 12
                /\ year dt * 12 + (month dt - 1) + n
                   = fst ym * 12 + (snd ym - 1)).
  { subst ym. destruct (r =? 0) eqn:E0; [to_prop; cbn; lia|].
    destruct (month dt + r >? 12) eqn:E1; [to_prop; cbn; lia|].
    destruct (month dt + r <? 1) eqn:E2; to_prop; cbn; lia. }
  destruct Hym as [Hm' Hidx].
  assert (Hcal : calendar_add_months dt n = ym).
  { unfold calendar_add_months. cbv zeta.
    destruct ym as [y' m']. cbn [fst snd] in *.
    now apply month_index_unique. }
  rewrite Hcal. now destruct ym.
Qed.

Lemma calendar_add_months_range :
  1 <= fst (calendar_add_months dt n)
  /\ 1 <= snd (calendar_add_months dt n) <= 12.
Proof.
  destruct dt_valid as (Hy & Hm & Hd). unfold MINYEAR, MAXYEAR in *.
  unfold calendar_add_months. cbn [fst snd].
  pose proof (Z.mod_pos_bound (year dt * 12 + (month dt - 1) + n) 12
                ltac:(lia)).
  assert (12 <= year dt * 12 + (month dt - 1) + n) by lia.
  pose proof (Z.div_le_mono 12 (year dt * 12 + (month dt - 1) + n) 12
                ltac:(lia) ltac:(lia)) as Hdiv.
  change (12 / 12) with 1 in Hdiv. lia.
Qed.

End AddMonthsExact.

(** X7. For a date in range and [n >= 0], [dt + relativedelta(months=n)]
    is the date [n] calendar months later, with the day clipped to the
    length of that month and the time of day kept. It raises exactly when
    that month lies past year 9999: [ValueError] while the year fits a C
    [int], [OverflowError] from year 2^31 on. *)
Theorem relativedelta_add_months (dt : datetime) (n : Z)
    (Hdt : valid_datetime dt) (Hn : 0 <= n) :
  let y := fst (calendar_add_months dt n) in
  let m := snd (calendar_add_months dt n) in
  relativedelta.add dt n
  = if y <=? MAXYEAR
    then Ok (mkdatetime y m (Z.min (days_in_month y m) (day dt)) (tod dt))
    else if y <? 2 ^ 31 then Raise ValueError
    else Raise OverflowError.
Proof.
  intros y m. rewrite (add_replace dt n Hdt Hn). fold y m.
  destruct (calendar_add_months_range dt n Hdt Hn) as [Hy Hm].
  fold y in Hy. fold m in Hm.
  destruct Hdt as (_ & _ & Hd).
  pose proof (days_in_month_ge y m Hm) as Hdim.
  pose proof (days_in_month_le y m) as Hdim'.
  set (dd := Z.min (days_in_month y m) (day dt)).
  assert (Hdd : 1 <= dd <= days_in_month y m) by (subst dd; lia).
  assert (Hfy : fits_int y = (y <? 2 ^ 31)).
  { unfold fits_int.
    assert (H0 : (- 2 ^ 31 <=? y) = true)
      by (apply Z.leb_le; change (2 ^ 31) with 2147483648; lia).
    now rewrite H0. }
  assert (Hfm : fits_int m = true).
  { unfold fits_int. change (2 ^ 31) with 2147483648.
    rewrite andb_true_iff, Z.leb_le, Z.ltb_lt. lia. }
  assert (Hfd : fits_int dd = true).
  { unfold fits_int. change (2 ^ 31) with 2147483648.
    rewrite andb_true_iff, Z.leb_le, Z.ltb_lt. lia. }
  unfold datetime_replace. rewrite Hfy, Hfm, Hfd, !andb_true_r.
  destruct (y <? 2 ^ 31) eqn:E; cbn [negb].
  - destruct (y <=? MAXYEAR) eqn:E9.
    + rewrite (proj2 (valid_datetimeb_iff _)); [reflexivity|].
      unfold valid_datetime, MINYEAR. cbn [year month day].
      apply Z.leb_le in E9. lia.
    + assert (Hv : valid_datetimeb (mkdatetime y m dd (tod dt)) = false).
      { unfold valid_datetimeb. cbn [year]. rewrite E9.
        now rewrite andb_false_r. }
      now rewrite Hv.
  - assert (H6 : (y <=? MAXYEAR) = false).
    { apply Z.leb_gt. apply Z.ltb_ge in E. unfold MAXYEAR.
      change (2 ^ 31) with 2147483648 in E. lia. }
    now rewrite H6.
Qed.

Lemma relativedelta_add_months_witness :
  relativedelta.add (mkdatetime 2024 1 31 0) 13
  = Ok (mkdatetime 2025 2 28 0).
Proof.
  apply (relativedelta_add_months (mkdatetime 2024 1 31 0) 13).
  - unfold valid_datetime, MINYEAR, MAXYEAR. cbn. lia.
  - lia.
Defined.

(** ** Factor scores and the score (source lines 74-87) *)

(** A run either has a name and returns [report_of], or has none. *)
Ltac by_run uid raw clk k Hclk Hdates s Hname :=
  destruct (Raw.name raw) as [s|] eqn:Hname;
  [ rewrite (fetch_hathor_nft_run uid raw clk Hclk Hdates s k Hname);
    cbn [value]
  | now rewrite (fetch_hathor_nft_no_name uid raw clk k Hname) ].

Lemma age_months_of_ge_1 (a b c : datetime) : 1 <= age_months_of a b c.
Proof. unfold age_months_of. lia. Qed.

Lemma tx_points_of_values (n : Z) :
  0 <= n ->
  0 <= tx_points_of n <= 25 /\ (tx_points_of n = 25 \/ tx_points_of n = 2 * n).
Proof. unfold tx_points_of. lia. Qed.

Lemma immutability_points_values (canMint canMelt : bool) :
  immutability_points_of canMint canMelt = 0
  \/ immutability_points_of canMint canMelt = 12
  \/ immutability_points_of canMint canMelt = 25.
Proof. destruct canMint, canMelt; cbn; auto. Qed.

(** X8. A returned report lists exactly three factors, Age, Transaction
    History and Immutability in this order, with their fixed descriptions
    and impacts; the age score lies in 1..25, the transaction score is an
    even number up to 24 or 25, the immutability score is 0, 12 or 25, and
    the score is at least 51. *)
Theorem report_factors (uid : string) (raw : Raw.t) (clk : clock) (k : nat)
    (Hclk : forall j, valid_datetime (clk j))
    (Hdates : Forall valid_datetime (Raw.tx_dates raw)) :
  match value (fetch_hathor_nft uid raw clk k) with
  | Ok rep =>
      exists a t i,
        factors (trustScoreData_ rep)
        = [ mkfactor "Age" a "Age in months since first TX" "Medium";
            mkfactor "Transaction History" t "Number of transactions" "High";
            mkfactor "Immutability" i "Mint/melt disabled" "High" ]
        /\ 1 <= a <= 25
        /\ 0 <= t <= 25 /\ (t = 25 \/ Z.even t = true)
        /\ (i = 0 \/ i = 12 \/ i = 25)
        /\ 51 <= trustScore rep
  | Raise _ => Raw.name raw = None
  end.
Proof.
  by_run uid raw clk k Hclk Hdates s Hname.
  set (first := first_tx_date_at (clk k) (Raw.tx_dates raw)).
  set (k1 := match Raw.tx_dates raw with [] => S k | _ :: _ => k end).
  set (am := age_months_of (clk k1) (clk (S k1)) first).
  pose proof (age_months_of_ge_1 (clk k1) (clk (S k1)) first) as Ham.
  fold am in Ham.
  set (n := Z.of_nat (List.length (Raw.tx_hashes raw))).
  destruct (tx_points_of_values n ltac:(lia)) as [Ht Hteven].
  pose proof (immutability_points_range (Raw.canMint raw) (Raw.canMelt raw))
    as Hi.
  eexists _, _, _. split; [reflexivity|].
  cbn [report_of trustScore]. fold n.
  repeat split;
    try (unfold age_points_of; lia); try (unfold score_of, age_points_of; lia).
  - destruct Hteven as [H|H]; [now left|right].
    rewrite H. now rewrite Z.even_mul.
  - apply immutability_points_values.
Qed.

Lemma report_factors_witness :
  match value (fetch_hathor_nft uid_example raw_aged (fixed today_example) 0%nat) with
  | Ok rep =>
      exists a t i,
        factors (trustScoreData_ rep)
        = [ mkfactor "Age" a "Age in months since first TX" "Medium";
            mkfactor "Transaction History" t "Number of transactions" "High";
            mkfactor "Immutability" i "Mint/melt disabled" "High" ]
        /\ 1 <= a <= 25
        /\ 0 <= t <= 25 /\ (t = 25 \/ Z.even t = true)
        /\ (i = 0 \/ i = 12 \/ i = 25)
        /\ 51 <= trustScore rep
  | Raise _ => Raw.name raw_aged = None
  end.
Proof.
  exact (report_factors uid_example raw_aged (fixed today_example) 0%nat
           (fixed_valid today_example today_example_valid)
           raw_aged_dates_valid).
Defined.

(** X9. A token that can be neither minted nor melted and has at least 13
    transactions scores 100 whatever its age: the age score is at least 1
    and the cap absorbs the rest. *)
Theorem verified_active_scores_100 (uid : string) (raw : Raw.t) (clk : clock)
    (k : nat)
    (Hclk : forall j, valid_datetime (clk j))
    (Hdates : Forall valid_datetime (Raw.tx_dates raw))
    (Hmint : Raw.canMint raw = false) (Hmelt : Raw.canMelt raw = false)
    (Htx : (13 <= List.length (Raw.tx_hashes raw))%nat) :
  match value (fetch_hathor_nft uid raw clk k) with
  | Ok rep => trustScore rep = 100 /\ confidenceLevel (trustScoreData_ rep) = 100
  | Raise _ => Raw.name raw = None
  end.
Proof.
  by_run uid raw clk k Hclk Hdates s Hname.
  set (first := first_tx_date_at (clk k) (Raw.tx_dates raw)).
  set (k1 := match Raw.tx_dates raw with [] => S k | _ :: _ => k end).
  pose proof (age_months_of_ge_1 (clk k1) (clk (S k1)) first) as Ham.
  cbn [report_of trustScore trustScoreData_ confidenceLevel].
  rewrite Hmint, Hmelt. cbn [immutability_points_of verified_of negb andb].
  unfold score_of, age_points_of, tx_points_of. lia.
Qed.

Lemma verified_active_scores_100_witness :
  match value (fetch_hathor_nft uid_example raw_active (fixed today_example) 0%nat) with
  | Ok rep => trustScore rep = 100 /\ confidenceLevel (trustScoreData_ rep) = 100
  | Raise _ => Raw.name raw_active = None
  end.
Proof.
  apply (verified_active_scores_100 uid_example raw_active
           (fixed today_example) 0%nat);
    try reflexivity.
  - exact (fixed_valid today_example today_example_valid).
  - repeat constructor; unfold MINYEAR, MAXYEAR; cbn; lia.
Defined.

(** X10. The score never decreases when the age or the number of
    transactions grows, and for a given age and number of transactions a
    token with both flags set scores at most what any other scores, and a
    token with no flag set at least as much. *)
Theorem score_monotone (age_months age_months' n n' : Z) (canMint canMelt : bool)
    (Hage : age_months <= age_months') (Hn : n <= n') :
  let score am c mint melt :=
    score_of (age_points_of am) (tx_points_of c)
      (immutability_points_of mint melt) in
  score age_months n canMint canMelt <= score age_months' n' canMint canMelt
  /\ score age_months n true true <= score age_months n canMint canMelt
  /\ score age_months n canMint canMelt <= score age_months n false false.
Proof.
  cbv zeta. unfold score_of, age_points_of, tx_points_of.
  destruct canMint, canMelt;
    unfold immutability_points_of, verified_of;
    cbn [negb andb Bool.eqb]; lia.
Qed.

Lemma score_monotone_witness :
  let score am c mint melt :=
    score_of (age_points_of am) (tx_points_of c)
      (immutability_points_of mint melt) in
  score 3 4 true false <= score 7 9 true false
  /\ score 3 4 true true <= score 3 4 true false
  /\ score 3 4 true false <= score 3 4 false false.
Proof. apply (score_monotone 3 7 4 9 true false); lia. Defined.

(** ** The trend (source lines 88-91) *)

Section TrendShape.

Variable first_tx_date : datetime.
Variables tx_points immutability_points : Z.


Lemma length_trend (age_months : Z) :
  List.length
    (map (spec_trend_point first_tx_date tx_points immutability_points)
       (range age_months))
  = Z.to_nat age_months.
Proof. now rewrite length_map, length_range. Qed.

Lemma nth_error_trend_scores (age_months : Z) (i : nat) :
  nth_error
    (map point_score
       (map (spec_trend_point first_tx_date tx_points immutability_points)
          (range age_months))) i
  = if Z.of_nat i <? age_months
    then Some (Z.min 100
                 (50 + Z.min (Z.of_nat i) 25 + tx_points + immutability_points))
    else None.
Proof.
  rewrite map_map, nth_error_map, nth_error_range.
  now destruct (Z.of_nat i <? age_months).
Qed.

End TrendShape.

(** X11. In a returned report the trend starts at
    [min(100, 50 + txScore + immutabilityScore)], never decreases from one
    month to the next, and no point of it lies below 50 or above the
    score of the report. *)
Theorem trend_monotone_bounded (uid : string) (raw : Raw.t) (clk : clock)
    (k : nat)
    (Hclk : forall j, valid_datetime (clk j))
    (Hdates : Forall valid_datetime (Raw.tx_dates raw)) :
  match value (fetch_hathor_nft uid raw clk k) with
  | Ok rep =>
      let trend := map point_score (history (trustScoreData_ rep)) in
      nth_error trend 0
      = Some (Z.min 100
                (50 + tx_points_of (transactionsCount rep)
                 + immutability_points_of (canMint rep) (canMelt rep)))
      /\ (forall i : nat,
            match nth_error trend i, nth_error trend (S i) with
            | Some p, Some q => p <= q
            | _, _ => True
            end)
      /\ Forall (fun p => 50 <= p <= trustScore rep) trend
  | Raise _ => Raw.name raw = None
  end.
Proof.
  by_run uid raw clk k Hclk Hdates s Hname.
  set (first := first_tx_date_at (clk k) (Raw.tx_dates raw)).
  set (k1 := match Raw.tx_dates raw with [] => S k | _ :: _ => k end).
  set (am := age_months_of (clk k1) (clk (S k1)) first).
  pose proof (age_months_of_ge_1 (clk k1) (clk (S k1)) first) as Ham.
  fold am in Ham.
  cbn [report_of trustScoreData_ history trustScore transactionsCount
         canMint canMelt].
  set (n := Z.of_nat (List.length (Raw.tx_hashes raw))).
  destruct (tx_points_of_values n ltac:(lia)) as [Ht _].
  pose proof (immutability_points_range (Raw.canMint raw) (Raw.canMelt raw))
    as Hi.
  cbv zeta. split; [|split].
  - rewrite nth_error_trend_scores.
    assert (Hlt : (Z.of_nat 0 <? am) = true) by (apply Z.ltb_lt; lia).
    rewrite Hlt. cbn [Z.of_nat]. f_equal; lia.
  - intros i. rewrite !nth_error_trend_scores.
    destruct (Z.of_nat i <? am); [|exact I].
    destruct (Z.of_nat (S i) <? am); [|exact I]. lia.
  - apply Forall_forall. intros p Hp.
    apply in_map_iff in Hp as (pt & <- & Hpt).
    apply in_map_iff in Hpt as (i & <- & Hi').
    apply in_range in Hi'.
    cbn [spec_trend_point point_score].
    unfold score_of, age_points_of. lia.
Qed.

Lemma trend_monotone_bounded_witness :
  match value (fetch_hathor_nft uid_example raw_aged (fixed today_example) 0%nat) with
  | Ok rep =>
      let trend := map point_score (history (trustScoreData_ rep)) in
      nth_error trend 0
      = Some (Z.min 100
                (50 + tx_points_of (transactionsCount rep)
                 + immutability_points_of (canMint rep) (canMelt rep)))
      /\ (forall i : nat,
            match nth_error trend i, nth_error trend (S i) with
            | Some p, Some q => p <= q
            | _, _ => True
            end)
      /\ Forall (fun p => 50 <= p <= trustScore rep) trend
  | Raise _ => Raw.name raw_aged = None
  end.
Proof.
  exact (trend_monotone_bounded uid_example raw_aged (fixed today_example)
           0%nat (fixed_valid today_example today_example_valid)
           raw_aged_dates_valid).
Defined.

(** X12. The trend stops short of the present: its last point is computed
    with one month of age less than the score, so for a token younger than
    26 months whose factor scores add up to at most 50 the last point of
    the trend is the score of the report minus 1. *)
Theorem trend_ends_below_score (uid : string) (raw : Raw.t) (clk : clock)
    (k : nat)
    (Hclk : forall j, valid_datetime (clk j))
    (Hdates : Forall valid_datetime (Raw.tx_dates raw)) :
  match value (fetch_hathor_nft uid raw clk k) with
  | Ok rep =>
      let trend := map point_score (history (trustScoreData_ rep)) in
      let total :=
        list_sum_Z (map factor_score (factors (trustScoreData_ rep))) in
      exists p,
        nth_error trend (List.length trend - 1) = Some p
        /\ if (Z.of_nat (List.length trend) <=? 25) && (total <=? 50)
           then p = trustScore rep - 1
           else p <= trustScore rep
  | Raise _ => Raw.name raw = None
  end.
Proof.
  by_run uid raw clk k Hclk Hdates s Hname.
  set (first := first_tx_date_at (clk k) (Raw.tx_dates raw)).
  set (k1 := match Raw.tx_dates raw with [] => S k | _ :: _ => k end).
  set (am := age_months_of (clk k1) (clk (S k1)) first).
  pose proof (age_months_of_ge_1 (clk k1) (clk (S k1)) first) as Ham.
  fold am in Ham.
  cbn [report_of trustScoreData_ history trustScore factors].
  set (n := Z.of_nat (List.length (Raw.tx_hashes raw))).
  destruct (tx_points_of_values n ltac:(lia)) as [Ht _].
  pose proof (immutability_points_range (Raw.canMint raw) (Raw.canMelt raw))
    as Hi.
  cbv zeta. rewrite length_map, length_trend.
  cbn [map factor_score list_sum_Z fold_right].
  eexists. split.
  - rewrite nth_error_trend_scores.
    assert (Hlt : (Z.of_nat (Z.to_nat am - 1) <? am) = true)
      by (apply Z.ltb_lt; lia).
    rewrite Hlt. reflexivity.
  - replace (Z.of_nat (Z.to_nat am - 1)) with (am - 1) by lia.
    rewrite Z2Nat.id by lia.
    destruct ((am <=? 25) && _) eqn:E; to_prop;
      unfold score_of, age_points_of in *; lia.
Qed.

Lemma trend_ends_below_score_witness :
  match value (fetch_hathor_nft uid_example raw_aged (fixed today_example) 0%nat) with
  | Ok rep =>
      let trend := map point_score (history (trustScoreData_ rep)) in
      let total :=
        list_sum_Z (map factor_score (factors (trustScoreData_ rep))) in
      exists p,
        nth_error trend (List.length trend - 1) = Some p
        /\ if (Z.of_nat (List.length trend) <=? 25) && (total <=? 50)
           then p = trustScore rep - 1
           else p <= trustScore rep
  | Raise _ => Raw.name raw_aged = None
  end.
Proof.
  exact (trend_ends_below_score uid_example raw_aged (fixed today_example)
           0%nat (fixed_valid today_example today_example_valid)
           raw_aged_dates_valid).
Defined.

(** ** Labels (source lines 66 and 89) *)

Section Labels.

Lemma before_first_app (c : ascii) (a b : string) :
  PyStr.contains c a = false -> before_first c (a ++ String c b) = a.
Proof.
  induction a as [|x a IH]; cbn.
  - now rewrite Ascii.eqb_refl.
  - destruct (Ascii.eqb x c); [discriminate|]. intros H. now rewrite IH.
Qed.

Lemma after_first_app (c : ascii) (a b : string) :
  PyStr.contains c a = false -> after_first c (a ++ String c b) = b.
Proof.
  induction a as [|x a IH]; cbn.
  - now rewrite Ascii.eqb_refl.
  - destruct (Ascii.eqb x c); [discriminate|]. exact IH.
Qed.

(** The text of a year holds no dash, reads back as the year, and has four
    characters exactly from 1000 on. *)
Lemma year_text_read (y : Z) :
  0 <= y <= 9999 ->
  PyStr.contains "-" (year_text y) = false
  /\ parse_dec (year_text y) = y
  /\ (PyStr.len (year_text y) =? 4) = (1000 <=? y).
Proof.
  intros Hy. unfold year_text, two_digits, four_digits, parse_dec, PyStr.len.
  destruct (y <? 10) eqn:E1; [apply Z.ltb_lt in E1|apply Z.ltb_ge in E1];
    [|destruct (y <? 100) eqn:E2;
        [apply Z.ltb_lt in E2|apply Z.ltb_ge in E2];
        [|destruct (y <? 1000) eqn:E3;
            [apply Z.ltb_lt in E3|apply Z.ltb_ge in E3]]];
    cbn [PyStr.contains parse_dec_from String.length];
    rewrite ?digit_char_no_dash, ?digit_value_digit_char
      by (Z.div_mod_to_equations; lia);
    (split; [reflexivity|]);
    (split; [Z.div_mod_to_equations; lia|]);
    symmetry; [apply Z.leb_gt|apply Z.leb_gt|apply Z.leb_gt|apply Z.leb_le];
    lia.
Qed.

Lemma two_digits_read (n : Z) :
  0 <= n <= 99 -> parse_dec (two_digits n) = n.
Proof.
  intros Hn. unfold two_digits, parse_dec. cbn [parse_dec_from].
  rewrite !digit_value_digit_char by (Z.div_mod_to_equations; lia).
  Z.div_mod_to_equations; lia.
Qed.

Lemma parse_Ym_month_label (y m : Z) :
  0 <= y <= 9999 -> 0 <= m <= 99 -> parse_Ym (month_label y m) = (y, m).
Proof.
  intros Hy Hm. destruct (year_text_read y Hy) as (Hfree & Hread & _).
  unfold parse_Ym, month_label.
  change ("-" ++ two_digits m) with (String "-" (two_digits m)).
  rewrite before_first_app, after_first_app by exact Hfree.
  now rewrite Hread, two_digits_read.
Qed.


End Labels.



Section TrendLabels.


(** Every point of the trend lies in a month of [datetime]'s range. *)
Lemma trend_months_in_range (first today_y today_m : datetime) (j : Z) :
  valid_datetime first -> valid_datetime today_y -> valid_datetime today_m ->
  0 <= j < age_months_of today_y today_m first ->
  12 <= month_index first + j <= MAXYEAR * 12 + 11.
Proof.
  intros (Hy & Hm & _) (Hy1 & _) (_ & Hm2 & _).
  unfold age_months_of, month_index, MINYEAR, MAXYEAR in *. lia.
Qed.

Lemma label_injective (first : datetime) (j j' : Z) :
  0 <= month_index first + j <= MAXYEAR * 12 + 11 ->
  0 <= month_index first + j' <= MAXYEAR * 12 + 11 ->
  month_label (fst (calendar_add_months first j))
    (snd (calendar_add_months first j))
  = month_label (fst (calendar_add_months first j'))
      (snd (calendar_add_months first j')) ->
  j = j'.
Proof.
  unfold month_index, MAXYEAR, calendar_add_months. cbn [fst snd].
  set (x := year first * 12 + (month first - 1) + j).
  set (x' := year first * 12 + (month first - 1) + j').
  intros Hx Hx' Heq. apply (f_equal parse_Ym) in Heq.
  pose proof (Z.div_mod x 12 ltac:(lia)) as Dx.
  pose proof (Z.mod_pos_bound x 12 ltac:(lia)) as Bx.
  pose proof (Z.div_mod x' 12 ltac:(lia)) as Dx'.
  pose proof (Z.mod_pos_bound x' 12 ltac:(lia)) as Bx'.
  rewrite !parse_Ym_month_label in Heq by lia.
  injection Heq as Hq Hr. lia.
Qed.

Lemma NoDup_range (n : Z) : NoDup (range n).
Proof.
  unfold range. apply NoDup_map_NoDup_ForallPairs; [|apply seq_NoDup].
  intros a b _ _ Hab. lia.
Qed.

End TrendLabels.

(** X14. With a clock and dates in [datetime]'s range, the labels of the
    trend of a returned report are pairwise different: one point per
    month. *)
Theorem trend_labels_distinct (uid : string) (raw : Raw.t) (clk : clock)
    (k : nat)
    (Hclk : forall j, valid_datetime (clk j))
    (Hdates : Forall valid_datetime (Raw.tx_dates raw)) :
  match value (fetch_hathor_nft uid raw clk k) with
  | Ok rep => NoDup (map point_date (history (trustScoreData_ rep)))
  | Raise _ => Raw.name raw = None
  end.
Proof.
  by_run uid raw clk k Hclk Hdates s Hname.
  set (first := first_tx_date_at (clk k) (Raw.tx_dates raw)).
  set (k1 := match Raw.tx_dates raw with [] => S k | _ :: _ => k end).
  set (am := age_months_of (clk k1) (clk (S k1)) first).
  cbn [report_of trustScoreData_ history]. rewrite map_map.
  apply NoDup_map_NoDup_ForallPairs; [|apply NoDup_range].
  intros a b Ha Hb Hab. apply in_range in Ha, Hb.
  cbn [spec_trend_point point_date] in Hab.
  assert (Hfirst : valid_datetime first)
    by apply (first_tx_date_at_valid raw clk Hclk Hdates k).
  pose proof (trend_months_in_range first (clk k1) (clk (S k1)) a
                Hfirst (Hclk k1) (Hclk (S k1)) Ha).
  pose proof (trend_months_in_range first (clk k1) (clk (S k1)) b
                Hfirst (Hclk k1) (Hclk (S k1)) Hb).
  apply (label_injective first a b); [lia|lia|exact Hab].
Qed.

Lemma trend_labels_distinct_witness :
  match value (fetch_hathor_nft uid_example raw_aged (fixed today_example) 0%nat) with
  | Ok rep => NoDup (map point_date (history (trustScoreData_ rep)))
  | Raise _ => Raw.name raw_aged = None
  end.
Proof.
  exact (trend_labels_distinct uid_example raw_aged (fixed today_example)
           0%nat (fixed_valid today_example today_example_valid)
           raw_aged_dates_valid).
Defined.



(** ** The transaction history (source lines 64-67) *)




(** ** Order of the transactions (source lines 64, 69-93) *)

Section Order.

Lemma datetime_leb_antisym (a b : datetime) :
  datetime_leb a b = true -> datetime_leb b a = true -> a = b.
Proof.
  unfold datetime_leb. rewrite !negb_true_iff. intros Hba Hab.
  assert (Nba : ~ datetime_ltb b a = true) by congruence.
  assert (Nab : ~ datetime_ltb a b = true) by congruence.
  rewrite datetime_ltb_spec in Nba, Nab.
  destruct a as [ya ma da ta], b as [yb mb db tb]. cbn in *.
  f_equal; lia.
Qed.

(** The earliest date does not depend on the order of the dates. *)
Lemma first_tx_date_at_perm (now : datetime) (ds ds' : list datetime) :
  Permutation ds ds' -> first_tx_date_at now ds = first_tx_date_at now ds'.
Proof.
  intros Hp. destruct ds as [|d ds], ds' as [|d' ds']; cbn.
  - reflexivity.
  - apply Permutation_nil in Hp. discriminate.
  - apply Permutation_sym, Permutation_nil in Hp. discriminate.
  - destruct (py_min_spec ds d) as [Hin Hall].
    destruct (py_min_spec ds' d') as [Hin' Hall'].
    rewrite Forall_forall in Hall, Hall'.
    apply datetime_leb_antisym.
    + apply Hall. apply (Permutation_in _ (Permutation_sym Hp)), Hin'.
    + apply Hall'. apply (Permutation_in _ Hp), Hin.
Qed.

Lemma first_tx_date_of_reads (ds : list datetime) (clk : clock) (k : nat) :
  first_tx_date_of ds clk k
  = Ok (first_tx_date_at (clk k) ds,
        match ds with [] => S k | _ :: _ => k end).
Proof. now destruct ds. Qed.

(** What a run does, step by step, whether the dates are in range or
    not. *)
Lemma fetch_hathor_nft_steps (uid : string) (raw : Raw.t) (clk : clock)
    (k : nat) :
  let k1 := match Raw.tx_dates raw with [] => S k | _ :: _ => k end in
  let first := first_tx_date_at (clk k) (Raw.tx_dates raw) in
  let am := age_months_of (clk k1) (clk (S k1)) first in
  let n := Z.of_nat (List.length (Raw.tx_hashes raw)) in
  let imm := immutability_points_of (Raw.canMint raw) (Raw.canMelt raw) in
  let score := score_of (age_points_of am) (tx_points_of n) imm in
  fetch_hathor_nft uid raw clk k
  = match collection_of (Raw.name raw) with
    | Raise e => Raise e
    | Ok c =>
        match history_of first am (tx_points_of n) imm clk (S (S k1)) with
        | Raise e => Raise e
        | Ok (h, k') =>
            Ok (mkNftData uid (Raw.name raw) (Raw.symbol raw)
                  (Raw.totalSupply raw) (Raw.canMint raw) (Raw.canMelt raw)
                  (Raw.config_str raw) "Hathor"
                  (verified_of (Raw.canMint raw) (Raw.canMelt raw))
                  (token_id uid) c "Unknown Creator" n
                  (transaction_history (Raw.tx_hashes raw) (Raw.tx_dates raw))
                  score
                  (mkTrustScoreData score score
                     [ mkfactor "Age" (age_points_of am)
                         "Age in months since first TX" "Medium";
                       mkfactor "Transaction History" (tx_points_of n)
                         "Number of transactions" "High";
                       mkfactor "Immutability" imm
                         "Mint/melt disabled" "High" ]
                     h (strengths_of imm (tx_points_of n))
                     (concerns_of (age_points_of am))),
                k')
        end
    end.
Proof.
  cbv zeta. unfold fetch_hathor_nft.
  destruct (collection_of (Raw.name raw)) as [c|e]; [|reflexivity].
  rewrite (bind_ok _ _ clk k c k) by reflexivity.
  set (k1 := match Raw.tx_dates raw with [] => S k | _ :: _ => k end).
  set (first := first_tx_date_at (clk k) (Raw.tx_dates raw)).
  rewrite (bind_ok _ _ clk k first k1) by apply first_tx_date_of_reads.
  rewrite (bind_ok _ _ clk k1 (age_months_of (clk k1) (clk (S k1)) first)
             (S (S k1))) by reflexivity.
  unfold bind at 1.
  destruct (history_of _ _ _ _ clk _) as [[h k']|e]; reflexivity.
Qed.

End Order.

(** X17. The scores do not depend on the order in which the transactions
    were collected: two records that differ only in the order of their
    hashes and of their dates give, on the same clock, the same score data
    (score, factors, trend, strengths, concerns), or the same
    exception. *)
Theorem score_data_order_independent (uid : string)
    (name symbol : option string) (totalSupply : Z) (canMint canMelt : bool)
    (config_str : string) (tx_hashes tx_hashes' : list string)
    (tx_dates tx_dates' : list datetime) (clk : clock) (k : nat)
    (Hhashes : Permutation tx_hashes tx_hashes')
    (Hdates : Permutation tx_dates tx_dates') :
  result_map trustScoreData_
    (value (fetch_hathor_nft uid
              (Raw.mk name symbol totalSupply canMint canMelt config_str
                 tx_hashes tx_dates) clk k))
  = result_map trustScoreData_
      (value (fetch_hathor_nft uid
                (Raw.mk name symbol totalSupply canMint canMelt config_str
                   tx_hashes' tx_dates') clk k)).
Proof.
  rewrite !fetch_hathor_nft_steps. cbn [Raw.name Raw.tx_dates Raw.tx_hashes
    Raw.canMint Raw.canMelt Raw.symbol Raw.totalSupply Raw.config_str].
  rewrite <- (Permutation_length Hhashes).
  rewrite <- (first_tx_date_at_perm (clk k) tx_dates tx_dates' Hdates).
  assert (Hk : match tx_dates' with [] => S k | _ :: _ => k end
               = match tx_dates with [] => S k | _ :: _ => k end).
  { destruct tx_dates, tx_dates'; try reflexivity.
    - apply Permutation_nil in Hdates. discriminate.
    - apply Permutation_sym, Permutation_nil in Hdates. discriminate. }
  rewrite Hk.
  destruct (collection_of name) as [c|e]; [|reflexivity].
  destruct (history_of _ _ _ _ clk _) as [[h k']|e]; reflexivity.
Qed.

Lemma score_data_order_independent_witness :
  result_map trustScoreData_
    (value (fetch_hathor_nft uid_example
              (Raw.mk (Some "Relic") None 1 false false "" [hash_a; hash_b]
                 [mkdatetime 2024 3 9 0; mkdatetime 2024 1 15 0])
              (fixed today_example) 0%nat))
  = result_map trustScoreData_
      (value (fetch_hathor_nft uid_example
                (Raw.mk (Some "Relic") None 1 false false "" [hash_b; hash_a]
                   [mkdatetime 2024 1 15 0; mkdatetime 2024 3 9 0])
                (fixed today_example) 0%nat)).
Proof.
  apply score_data_order_independent; apply perm_swap.
Defined.

(** ** Strengths and concerns (source lines 92-93) *)

(** X18. The strengths of a returned report are, in this order, "Strong
    immutability" when the token can be neither minted nor melted and
    "Good transaction history" when it has at least 10 transactions; the
    list holds nothing else, no placeholder and no empty label. *)
Theorem report_strengths (uid : string) (raw : Raw.t) (clk : clock) (k : nat)
    (Hclk : forall j, valid_datetime (clk j))
    (Hdates : Forall valid_datetime (Raw.tx_dates raw)) :
  match value (fetch_hathor_nft uid raw clk k) with
  | Ok rep =>
      strengths (trustScoreData_ rep)
      = ((if negb (Raw.canMint raw) && negb (Raw.canMelt raw)
          then [Some "Strong immutability"] else [])
         ++ (if (10 <=? List.length (Raw.tx_hashes raw))%nat
             then [Some "Good transaction history"] else []))%list
      /\ Forall (fun e => e <> None /\ e <> Some "")
           (strengths (trustScoreData_ rep))
  | Raise _ => Raw.name raw = None
  end.
Proof.
  by_run uid raw clk k Hclk Hdates s Hname.
  cbn [report_of trustScoreData_ strengths].
  rewrite strengths_of_spec.
  set (n := List.length (Raw.tx_hashes raw)).
  assert (Himm : (immutability_points_of (Raw.canMint raw) (Raw.canMelt raw)
                  =? 25)
                 = negb (Raw.canMint raw) && negb (Raw.canMelt raw))
    by now destruct (Raw.canMint raw), (Raw.canMelt raw).
  assert (Htx : (tx_points_of (Z.of_nat n) >=? 20) = (10 <=? n)%nat).
  { unfold tx_points_of. destruct (10 <=? n)%nat eqn:E.
    - apply Nat.leb_le in E. rewrite Z.geb_leb. apply Z.leb_le. lia.
    - apply Nat.leb_gt in E. rewrite Z.geb_leb. apply Z.leb_gt. lia. }
  rewrite Himm, Htx. split; [reflexivity|].
  destruct (negb (Raw.canMint raw) && negb (Raw.canMelt raw)),
    (10 <=? n)%nat; repeat constructor; discriminate.
Qed.

Lemma report_strengths_witness :
  match value (fetch_hathor_nft uid_example raw_active (fixed today_example) 0%nat) with
  | Ok rep =>
      strengths (trustScoreData_ rep)
      = [Some "Strong immutability"; Some "Good transaction history"]
      /\ Forall (fun e => e <> None /\ e <> Some "")
           (strengths (trustScoreData_ rep))
  | Raise _ => Raw.name raw_active = None
  end.
Proof.
  apply (report_strengths uid_example raw_active (fixed today_example) 0%nat).
  - exact (fixed_valid today_example today_example_valid).
  - repeat constructor; unfold MINYEAR, MAXYEAR; cbn; lia.
Defined.

(** X19. The concerns of a returned report always have exactly one entry:
    "Low age" when the trend has fewer than 5 points (an age below 5
    months), and the placeholder [None] otherwise. *)
Theorem report_concerns (uid : string) (raw : Raw.t) (clk : clock) (k : nat)
    (Hclk : forall j, valid_datetime (clk j))
    (Hdates : Forall valid_datetime (Raw.tx_dates raw)) :
  match value (fetch_hathor_nft uid raw clk k) with
  | Ok rep =>
      concerns (trustScoreData_ rep)
      = [ if (List.length (history (trustScoreData_ rep)) <? 5)%nat
          then Some "Low age" else None ]
  | Raise _ => Raw.name raw = None
  end.
Proof.
  by_run uid raw clk k Hclk Hdates s Hname.
  set (first := first_tx_date_at (clk k) (Raw.tx_dates raw)).
  set (k1 := match Raw.tx_dates raw with [] => S k | _ :: _ => k end).
  set (am := age_months_of (clk k1) (clk (S k1)) first).
  pose proof (age_months_of_ge_1 (clk k1) (clk (S k1)) first) as Ham.
  fold am in Ham.
  cbn [report_of trustScoreData_ concerns history].
  rewrite length_trend. unfold concerns_of, age_points_of. f_equal.
  destruct (Z.to_nat am <? 5)%nat eqn:E.
  - apply Nat.ltb_lt in E.
    assert (Hlt : (Z.min am 25 <? 5) = true) by (apply Z.ltb_lt; lia).
    now rewrite Hlt.
  - apply Nat.ltb_ge in E.
    assert (Hge : (Z.min am 25 <? 5) = false) by (apply Z.ltb_ge; lia).
    now rewrite Hge.
Qed.

Lemma report_concerns_witness :
  match value (fetch_hathor_nft uid_example raw_aged (fixed today_example) 0%nat) with
  | Ok rep => concerns (trustScoreData_ rep) = [None]
  | Raise _ => Raw.name raw_aged = None
  end.
Proof.
  exact (report_concerns uid_example raw_aged (fixed today_example) 0%nat
           (fixed_valid today_example today_example_valid)
           raw_aged_dates_valid).
Defined.

(** ** The clock (source lines 72-74) *)

(** X20. Line 74 reads the clock twice, once for the year and once for
    the month. When the first reading falls in December and the second
    in January of the next year, a token that was at least 12 months old
    gets an age 11 months below its age at the first reading and 12
    months below its age at the second. *)
Theorem age_across_new_year (uid : string) (raw : Raw.t) (clk : clock)
    (k : nat) (d : datetime) (ds : list datetime)
    (Hclk : forall j, valid_datetime (clk j))
    (Hdates : Forall valid_datetime (Raw.tx_dates raw))
    (Hsome : Raw.tx_dates raw = d :: ds)
    (Hdec : month (clk k) = 12)
    (Hjan : month (clk (S k)) = 1)
    (Hyear : year (clk (S k)) = year (clk k) + 1)
    (Hold : 12 <= age_months_of (clk k) (clk k) (py_min d ds)) :
  match value (fetch_hathor_nft uid raw clk k) with
  | Ok rep =>
      let age_months :=
        Z.of_nat (List.length (history (trustScoreData_ rep))) in
      age_months = age_months_of (clk k) (clk k) (py_min d ds) - 11
      /\ age_months
         = age_months_of (clk (S k)) (clk (S k)) (py_min d ds) - 12
  | Raise _ => Raw.name raw = None
  end.
Proof.
  by_run uid raw clk k Hclk Hdates s Hname.
  cbn [report_of trustScoreData_ history]. cbv zeta.
  rewrite length_trend, Hsome. cbn [first_tx_date_at].
  unfold age_months_of in *. rewrite Hdec in Hold.
  rewrite Hdec, Hjan, Hyear. lia.
Qed.

Lemma age_across_new_year_witness :
  match value (fetch_hathor_nft uid_example raw_2023 clock_new_year 0%nat) with
  | Ok rep =>
      let age_months :=
        Z.of_nat (List.length (history (trustScoreData_ rep))) in
      age_months = 21 - 11 /\ age_months = 22 - 12
  | Raise _ => Raw.name raw_2023 = None
  end.
Proof.
  apply (age_across_new_year uid_example raw_2023 clock_new_year 0%nat
           (mkdatetime 2023 3 14 0) []); try reflexivity.
  - intros [|j]; unfold valid_datetime, MINYEAR, MAXYEAR; cbn; lia.
  - repeat constructor; unfold MINYEAR, MAXYEAR; cbn; lia.
  - unfold age_months_of. cbn. lia.
Defined.

(** * Properties of the mock server *)

Section ServerExchange.

Variable E : Server.env.
Variable utcnow : datetime.
Hypothesis Hflat : dumps_flat E.
Hypothesis Hcalls : response_calls_return E.

Lemma call_returns (a : Server.action) (p : Server.progress) :
  Server.call E a p
  = (Server.mkprogress (S (Server.attempted p)) (Server.made p ++ [a]),
     Server.Value tt).
Proof. unfold Server.call. now rewrite Hcalls. Qed.

Lemma call_each_returns (l : list Server.action) (p : Server.progress) :
  Server.call_each E l p
  = (Server.mkprogress (Server.attempted p + List.length l)
       (Server.made p ++ l),
     Server.Value tt).
Proof.
  revert p. induction l as [|a l IH]; intros [k done]; cbn.
  - now rewrite Nat.add_0_r, app_nil_r.
  - rewrite call_returns, IH. cbn. rewrite <- app_assoc. cbn.
    do 2 f_equal. lia.
Qed.

(** With the headers out, the body is dumped and written, or the
    exception of [json.dumps] leaves [respond]. *)
Lemma respond_returns (code : Z) (body : Server.json) (p : Server.progress) :
  Server.respond E code body p
  = match Server.json_dumps E body with
    | Server.Value data =>
        (Server.mkprogress (Server.attempted p + 7)
           (Server.made p ++ Server._set_headers code
            ++ [Server.wfile_write data]),
         Server.Value tt)
    | Server.Raised message =>
        (Server.mkprogress (Server.attempted p + 6)
           (Server.made p ++ Server._set_headers code),
         Server.Raised message)
    end.
Proof.
  unfold Server.respond. rewrite call_each_returns.
  destruct (Server.json_dumps E body) as [data|message]; [|reflexivity].
  rewrite call_returns. cbn [Server.attempted Server.made].
  rewrite <- app_assoc. do 2 f_equal. cbn. lia.
Qed.

(** A small body is written after its headers. *)
Lemma respond_flat (code : Z) (items : list (string * Server.json))
    (p : Server.progress) :
  flat items = true ->
  exists data,
    Server.json_dumps E (Server.JDict items) = Server.Value data
    /\ Server.respond E code (Server.JDict items) p
       = (Server.mkprogress (Server.attempted p + 7)
            (Server.made p ++ Server._set_headers code
             ++ [Server.wfile_write data]),
          Server.Value tt).
Proof.
  intros Hitems. destruct (Hflat items Hitems) as [data Hdata].
  exists data. split; [exact Hdata|].
  rewrite respond_returns. now rewrite Hdata.
Qed.

Lemma internal_error_flat (message : string) (p : Server.progress) :
  exists data,
    Server.internal_error E message p
    = (Server.mkprogress (Server.attempted p + 7)
         (Server.made p ++ Server._set_headers 500
          ++ [Server.wfile_write data]),
       Server.Value tt).
Proof.
  unfold Server.internal_error.
  destruct (respond_flat 500
              [("success", Server.JBool false);
               ("error", Server.JStr "Internal Server Error");
               ("message", Server.JStr message)] p eq_refl)
    as (data & _ & H).
  now exists data.
Qed.

Lemma invalid_json_flat (p : Server.progress) :
  exists data,
    Server.invalid_json E p
    = (Server.mkprogress (Server.attempted p + 7)
         (Server.made p ++ Server._set_headers 400
          ++ [Server.wfile_write data]),
       Server.Value tt).
Proof.
  unfold Server.invalid_json.
  destruct (respond_flat 400
              [("success", Server.JBool false);
               ("error", Server.JStr "Invalid JSON")] p eq_refl)
    as (data & _ & H).
  now exists data.
Qed.

Lemma not_found_flat :
  exists data,
    Server.finish (Server.not_found E (Server.start []))
    = ((Server._set_headers 404 ++ [Server.wfile_write data])%list,
       Server.Returns).
Proof.
  unfold Server.not_found.
  destruct (respond_flat 404 [("error", Server.JStr "Not Found")]
              (Server.start []) eq_refl)
    as (data & _ & H).
  exists data. now rewrite H.
Qed.

(** The [try] statement after the calls [done], when the f-string,
    [print] and the decoder have ended the way the lemma names. *)
Lemma analyze_decode_error (post_data : string) (done : list Server.action) :
  Server.json_loads E post_data = Server.JSONDecodeError ->
  exists data,
    Server.finish (Server.analyze E utcnow post_data (Server.start done))
    = ((done ++ Server._set_headers 400 ++ [Server.wfile_write data])%list,
       Server.Returns).
Proof.
  intros H. unfold Server.analyze, Server.try_body. rewrite H.
  destruct (invalid_json_flat (Server.start done)) as [data ->].
  now exists data.
Qed.

Lemma analyze_raised (message : string) (post_data : string)
    (done : list Server.action) :
  Server.try_body E utcnow post_data (Server.start done)
  = (Server.start done, Server.Raised_Exception message) ->
  exists data,
    Server.finish (Server.analyze E utcnow post_data (Server.start done))
    = ((done ++ Server._set_headers 500 ++ [Server.wfile_write data])%list,
       Server.Returns).
Proof.
  intros H. unfold Server.analyze. rewrite H.
  destruct (internal_error_flat message (Server.start done)) as [data ->].
  now exists data.
Qed.

(** The body of the [try] statement for a decoded object. *)
Lemma try_body_object (post_data : string)
    (items : list (string * Server.json)) (p : Server.progress) :
  Server.json_loads E post_data = Server.Loaded (Server.JDict items) ->
  let contract_address :=
    Server.dict_get items "contractAddress" (Server.JStr "") in
  Server.try_body E utcnow post_data p
  = match Server.py_format E contract_address with
    | Server.Raised message => (p, Server.Raised_Exception message)
    | Server.Value text =>
        match Server.py_print E (info_line text) with
        | Server.Raised message => (p, Server.Raised_Exception message)
        | Server.Value _ =>
            match Server.json_dumps E
                    (Server.analysis_response contract_address utcnow) with
            | Server.Value data =>
                (Server.mkprogress (Server.attempted p + 7)
                   (Server.made p ++ Server.print (info_line text)
                    :: Server._set_headers 200 ++ [Server.wfile_write data]),
                 Server.Completed)
            | Server.Raised message =>
                (Server.mkprogress (Server.attempted p + 6)
                   (Server.made p ++ Server.print (info_line text)
                    :: Server._set_headers 200),
                 Server.Raised_Exception message)
            end
        end
    end.
Proof.
  intros H. cbv zeta. unfold Server.try_body, info_line. rewrite H.
  destruct (Server.py_format E _) as [text|message]; [|reflexivity].
  destruct (Server.py_print E _) as [u|message]; [|reflexivity].
  rewrite respond_returns.
  destruct (Server.json_dumps E _) as [data|message];
    cbn [Server.attempted Server.made]; rewrite <- app_assoc; reflexivity.
Qed.

(** What the [try] statement does after the calls [done]: it may print a
    line, it may have sent the headers of a 200 before it answers 500, and
    it always ends with the headers of one status and one body. *)
Lemma analyze_shape (post_data : string) (done : list Server.action) :
  exists log prefix code data,
    Server.finish (Server.analyze E utcnow post_data (Server.start done))
    = ((done ++ log ++ prefix ++ Server._set_headers code
        ++ [Server.wfile_write data])%list,
       Server.Returns)
    /\ (log = [] \/ exists line, log = [Server.print line])
    /\ In code [200; 400; 500]
    /\ (prefix = [] \/ (prefix = Server._set_headers 200 /\ code = 500))
    /\ status_codes (log ++ prefix ++ Server._set_headers code
                     ++ [Server.wfile_write data])
       = match Server.json_loads E post_data with
         | Server.JSONDecodeError => [400]
         | Server.OtherError _ => [500]
         | Server.Loaded (Server.JDict items) =>
             let contract_address :=
               Server.dict_get items "contractAddress" (Server.JStr "") in
             match Server.py_format E contract_address with
             | Server.Raised _ => [500]
             | Server.Value text =>
                 match Server.py_print E (info_line text) with
                 | Server.Raised _ => [500]
                 | Server.Value _ =>
                     match Server.json_dumps E
                             (Server.analysis_response contract_address
                                utcnow) with
                     | Server.Value _ => [200]
                     | Server.Raised _ => [200; 500]
                     end
                 end
             end
         | Server.Loaded _ => [500]
         end
    /\ (code = 200 ->
        exists items,
          Server.json_loads E post_data = Server.Loaded (Server.JDict items)
          /\ Server.json_dumps E
               (Server.analysis_response
                  (Server.dict_get items "contractAddress" (Server.JStr ""))
                  utcnow)
             = Server.Value data).
Proof.
  destruct (Server.json_loads E post_data) as [v| |message] eqn:Hl.
  - assert (Hother :
      forall message,
        Server.try_body E utcnow post_data (Server.start done)
        = (Server.start done, Server.Raised_Exception message) ->
        match v with Server.JDict _ => False | _ => True end ->
        exists log prefix code data,
          Server.finish (Server.analyze E utcnow post_data (Server.start done))
          = ((done ++ log ++ prefix ++ Server._set_headers code
              ++ [Server.wfile_write data])%list, Server.Returns)
          /\ (log = [] \/ exists line, log = [Server.print line])
          /\ In code [200; 400; 500]
          /\ (prefix = [] \/ (prefix = Server._set_headers 200 /\ code = 500))
          /\ status_codes (log ++ prefix ++ Server._set_headers code
                           ++ [Server.wfile_write data]) = [500]
          /\ (code = 200 -> False)).
    { intros message Ht _. destruct (analyze_raised message _ _ Ht) as [d Hd].
      exists [], [], 500, d. rewrite Hd. cbn. intuition discriminate. }
    destruct v as [| b | n | f | s | l | items];
      try (edestruct Hother as (log & prefix & code & d & H1 & H2 & H3 & H4 & H5 & H6);
           [unfold Server.try_body; rewrite Hl; reflexivity|exact I|];
           exists log, prefix, code, d; intuition).
    clear Hother.
    pose proof (try_body_object post_data items (Server.start done) Hl) as Ht.
    cbv zeta in Ht |- *.
    set (ca := Server.dict_get items "contractAddress" (Server.JStr "")) in *.
    unfold Server.analyze. rewrite Ht. clear Ht.
    destruct (Server.py_format E ca) as [text|message].
    + destruct (Server.py_print E (info_line text)) as [u|message].
      * destruct (Server.json_dumps E (Server.analysis_response ca utcnow))
          as [body|message] eqn:Hd.
        -- exists [Server.print (info_line text)], [], 200, body.
           cbn. split; [reflexivity|]. split; [right; eexists; reflexivity|].
           split; [auto|]. split; [auto|]. split; [reflexivity|].
           intros _. exists items. split; [reflexivity|exact Hd].
        -- destruct (internal_error_flat message
                       (Server.mkprogress (Server.attempted (Server.start done) + 6)
                          (Server.made (Server.start done)
                           ++ Server.print (info_line text)
                              :: Server._set_headers 200))) as [d ->].
           exists [Server.print (info_line text)],
             (Server._set_headers 200), 500, d.
           cbn. rewrite <- app_assoc. cbn.
           split; [reflexivity|]. split; [right; eexists; reflexivity|].
           split; [auto|]. split; [auto|]. split; [reflexivity|].
           discriminate.
      * destruct (internal_error_flat message (Server.start done)) as [d ->].
        exists [], [], 500, d. cbn. intuition discriminate.
    + destruct (internal_error_flat message (Server.start done)) as [d ->].
      exists [], [], 500, d. cbn. intuition discriminate.
  - destruct (analyze_decode_error post_data done Hl) as [d ->].
    exists [], [], 400, d. cbn. intuition discriminate.
  - destruct (analyze_raised message post_data done) as [d ->].
    { unfold Server.try_body. now rewrite Hl. }
    exists [], [], 500, d. cbn. intuition discriminate.
Qed.

End ServerExchange.

Lemma env_example_flat : dumps_flat env_example.
Proof.
  intros items _. cbn. destruct items as [|[key v] items]; eexists; reflexivity.
Qed.

Lemma env_example_calls_return : response_calls_return env_example.
Proof. intros k a. reflexivity. Qed.

(** X21. Whatever the method (OPTIONS, GET, POST), the request and the
    behaviour of the library calls, provided the calls on the response
    return (the client stays) and [json.dumps] does not raise on the small
    bodies of strings and booleans: a handler that returns has ended with
    the headers of one status among 200, 400, 404 and 500 (status line,
    content type, the three CORS headers, end of headers) and one body,
    none for OPTIONS. Before them it has sent nothing, but for one case of
    POST: when [json.dumps] raises on the answer of [/api/analyze], the
    headers of the 200 are already out and the headers and body of a 500
    follow them. A handler that does not return, because an exception
    leaves it or because it waits for the body, has made no call, and that
    happens for POST only. *)
Theorem one_response_per_request (m : method) (E : Server.env)
    (utcnow : datetime) (r : Server.request)
    (Hflat : dumps_flat E) (Hcalls : response_calls_return E) :
  let headers code :=
    [ Server.send_response code;
      Server.send_header "Content-type" "application/json";
      Server.send_header "Access-Control-Allow-Origin" "*";
      Server.send_header "Access-Control-Allow-Methods" "GET, POST, OPTIONS";
      Server.send_header "Access-Control-Allow-Headers" "Content-Type";
      Server.end_headers ] in
  match handle m E utcnow r with
  | (calls, Server.Returns) =>
      exists prefix code,
        filter to_client calls
        = (prefix ++ headers code
           ++ map Server.wfile_write (bodies calls))%list
        /\ In code [200; 400; 404; 500]
        /\ List.length (bodies calls)
           = match m with OPTIONS => 0%nat | _ => 1%nat end
        /\ (prefix = []
            \/ (m = POST /\ prefix = headers 200 /\ code = 500))
  | (calls, Server.Propagates _) => calls = [] /\ m = POST
  | (calls, Server.Waits) => calls = [] /\ m = POST
  end.
Proof.
  intros headers.
  assert (Hh : headers = Server._set_headers) by reflexivity.
  clearbody headers. subst headers.
  destruct m; unfold handle.
  - unfold Server.do_OPTIONS. rewrite (call_each_returns E Hcalls).
    exists [], 200. cbn. auto 10.
  - unfold Server.do_GET.
    destruct (String.eqb (Server.path r) "/api/health").
    + destruct (respond_flat E Hflat Hcalls 200
                  [("status", Server.JStr "ok");
                   ("timestamp", Server.JStr (Server.isoformat utcnow))]
                  (Server.start []) eq_refl) as (data & _ & ->).
      exists [], 200. cbn. auto 10.
    + destruct (not_found_flat E Hflat Hcalls) as [data ->].
      exists [], 404. cbn. auto 10.
  - unfold Server.do_POST.
    destruct (String.eqb (Server.path r) "/api/analyze").
    + destruct (Server.content_length r) as [header|]; [|now split].
      destruct (Server.py_int E header) as [size|]; [|now split].
      destruct (Server.rfile r size) as [post_data| |]; [|now split..].
      destruct (analyze_shape E utcnow Hflat Hcalls post_data
                  [Server.rfile_read size])
        as (log & prefix & code & data & -> & Hlog & Hcode & Hprefix & _).
      exists prefix, code.
      assert (Hin : In code [200; 400; 404; 500])
        by (cbn in *; intuition).
      destruct Hlog as [->|[line ->]];
        destruct Hprefix as [->|[-> ->]]; cbn;
        repeat split; try reflexivity; auto 10.
    + destruct (not_found_flat E Hflat Hcalls) as [data ->].
      exists [], 404. cbn. auto 10.
Qed.

Lemma one_response_per_request_witness :
  let headers code :=
    [ Server.send_response code;
      Server.send_header "Content-type" "application/json";
      Server.send_header "Access-Control-Allow-Origin" "*";
      Server.send_header "Access-Control-Allow-Methods" "GET, POST, OPTIONS";
      Server.send_header "Access-Control-Allow-Headers" "Content-Type";
      Server.end_headers ] in
  match handle POST env_example today_example (request_example "{}") with
  | (calls, Server.Returns) =>
      exists prefix code,
        filter to_client calls
        = (prefix ++ headers code
           ++ map Server.wfile_write (bodies calls))%list
        /\ In code [200; 400; 404; 500]
        /\ List.length (bodies calls) = 1%nat
        /\ (prefix = []
            \/ (POST = POST /\ prefix = headers 200 /\ code = 500))
  | (calls, Server.Propagates _) => calls = [] /\ POST = POST
  | (calls, Server.Waits) => calls = [] /\ POST = POST
  end.
Proof.
  exact (one_response_per_request POST env_example today_example
           (request_example "{}") env_example_flat env_example_calls_return).
Defined.

Ltac crush :=
  repeat match goal with
  | x := _ |- _ => subst x
  | H : exists _, _ |- _ => destruct H
  | H : _ /\ _ |- _ => destruct H
  | H : Server.Loaded _ = Server.Loaded _ |- _ => injection H as H
  | H : Server.JDict _ = Server.JDict _ |- _ => injection H as H
  end;
  subst; try congruence.

Ltac leaf := repeat split; intros; try discriminate; auto 6.

(** X22. A POST to [/api/analyze] whose [Content-Length] is an integer and
    whose body is read reads the body first and then returns, if the calls
    on the response return and [json.dumps] does not raise on the small
    bodies. It answers 400 exactly when the decoder raises
    [JSONDecodeError]. It answers 200 exactly when the body decodes to a
    JSON object and the f-string, [print] and [json.dumps] of the answer
    all return; the body sent then carries the request's
    [contractAddress], the empty string when the object has none. When
    only [json.dumps] of the answer raises, the status line of a 200 is
    followed by that of a 500. In every other case (a decoded value that
    is no object, another exception of the decoder, of the f-string or of
    [print]) it answers 500. *)
Theorem analyze_status (E : Server.env) (utcnow : datetime)
    (r : Server.request) (header : string) (size : Z) (post_data : string)
    (Hflat : dumps_flat E) (Hcalls : response_calls_return E)
    (Hpath : Server.path r = "/api/analyze")
    (Hheader : Server.content_length r = Some header)
    (Hsize : Server.py_int E header = Some size)
    (Hread : Server.rfile r size = Server.Read post_data) :
  let calls := fst (Server.do_POST E utcnow r) in
  let decoded := Server.json_loads E post_data in
  let answer items :=
    Server.JDict
      [ ("success", Server.JBool true);
        ("data",
          Server.JDict
            [ ("contractAddress",
                Server.dict_get items "contractAddress" (Server.JStr ""));
              ("name", Server.JStr "Test NFT Collection");
              ("symbol", Server.JStr "TEST");
              ("totalSupply", Server.JStr "10000");
              ("analysis",
                Server.JDict
                  [ ("security", Server.JInt 85);
                    ("activity", Server.JInt 72);
                    ("community", Server.JInt 65);
                    ("liquidity", Server.JInt 90) ]);
              ("priceData",
                Server.JDict
                  [ ("currentPrice", Server.JFloat "0.5");
                    ("priceChange24h", Server.JFloat "2.5");
                    ("volume24h", Server.JInt 2500) ]);
              ("lastUpdated", Server.JStr (Server.isoformat utcnow)) ]) ] in
  let all_return items :=
    exists text u data,
      Server.py_format E
        (Server.dict_get items "contractAddress" (Server.JStr ""))
      = Server.Value text
      /\ Server.py_print E (info_line text) = Server.Value u
      /\ Server.json_dumps E (answer items) = Server.Value data
      /\ bodies calls = [data] in
  let only_dumps_raises items :=
    exists text u message,
      Server.py_format E
        (Server.dict_get items "contractAddress" (Server.JStr ""))
      = Server.Value text
      /\ Server.py_print E (info_line text) = Server.Value u
      /\ Server.json_dumps E (answer items) = Server.Raised message in
  snd (Server.do_POST E utcnow r) = Server.Returns
  /\ hd_error calls = Some (Server.rfile_read size)
  /\ (status_codes calls = [400] <-> decoded = Server.JSONDecodeError)
  /\ (status_codes calls = [200]
      <-> exists items,
            decoded = Server.Loaded (Server.JDict items) /\ all_return items)
  /\ (status_codes calls = [200; 500]
      <-> exists items,
            decoded = Server.Loaded (Server.JDict items)
            /\ only_dumps_raises items)
  /\ (status_codes calls = [400] \/ status_codes calls = [200]
      \/ status_codes calls = [200; 500] \/ status_codes calls = [500]).
Proof.
  intros calls decoded answer.
  assert (Ha : answer
               = fun items =>
                   Server.analysis_response
                     (Server.dict_get items "contractAddress"
                        (Server.JStr "")) utcnow) by reflexivity.
  clearbody answer. subst answer calls decoded.
  cbv beta zeta. unfold Server.do_POST. rewrite Hpath, Hheader, Hsize, Hread.
  cbn [String.eqb Ascii.eqb Bool.eqb].
  destruct (analyze_shape E utcnow Hflat Hcalls post_data
              [Server.rfile_read size])
    as (log & prefix & code & data & -> & Hlog & Hcode & Hprefix
        & Hstatus & H200).
  cbn [fst snd app hd_error].
  split; [reflexivity|]. split; [reflexivity|].
  change (status_codes
            (Server.rfile_read size
             :: log ++ prefix ++ Server._set_headers code
                ++ [Server.wfile_write data]))
    with (status_codes
            (log ++ prefix ++ Server._set_headers code
             ++ [Server.wfile_write data])).
  change (bodies
            (Server.rfile_read size
             :: log ++ prefix ++ Server._set_headers code
                ++ [Server.wfile_write data]))
    with (bodies
            (log ++ prefix ++ Server._set_headers code
             ++ [Server.wfile_write data])).
  assert (Hbodies :
    bodies (log ++ prefix ++ Server._set_headers code
            ++ [Server.wfile_write data]) = [data]).
  { destruct Hlog as [->|[line ->]];
      destruct Hprefix as [->|[-> ->]]; reflexivity. }
  assert (Hc :
    status_codes (log ++ prefix ++ Server._set_headers code
                  ++ [Server.wfile_write data]) = [200] -> code = 200).
  { destruct Hlog as [->|[line ->]];
      destruct Hprefix as [->|[-> ->]]; cbn; congruence. }
  rewrite Hbodies. rewrite Hstatus in *.
  clear Hstatus Hbodies Hlog Hprefix Hcode.
  destruct (Server.json_loads E post_data) as [v| |message].
  - destruct v as [| b | n | f | s | l | items]; try solve [leaf; crush].
    cbv zeta in *.
    set (ca := Server.dict_get items "contractAddress" (Server.JStr "")) in *.
    destruct (Server.py_format E ca) as [text|message] eqn:Hf;
      [|solve [leaf; crush]].
    destruct (Server.py_print E (info_line text)) as [u|message] eqn:Hp;
      [|solve [leaf; crush]].
    destruct (Server.json_dumps E (Server.analysis_response ca utcnow))
      as [body|message] eqn:Hd.
    + destruct (H200 (Hc eq_refl)) as (items' & Hi & Hd').
      injection Hi as <-. fold ca in Hd'. rewrite Hd in Hd'.
      injection Hd' as <-.
      leaf; [|crush].
      exists items. split; [reflexivity|]. exists text, u, body.
      split; [exact Hf|]. split; [exact Hp|]. split; [exact Hd|].
      reflexivity.
    + leaf; [crush|].
      exists items. split; [reflexivity|]. exists text, u, message.
      split; [exact Hf|]. split; [exact Hp|exact Hd].
  - leaf; crush.
  - leaf; crush.
Qed.


Lemma analyze_status_witness :
  snd (Server.do_POST env_example today_example (request_example "{}"))
  = Server.Returns.
Proof.
  exact (proj1 (analyze_status env_example today_example
                  (request_example "{}") "2" 2 "{}"
                  env_example_flat env_example_calls_return
                  eq_refl eq_refl eq_refl eq_refl)).
Defined.



Section ClientGone.

Variable E : Server.env.
Variable utcnow : datetime.
Hypothesis Hgone :
  forall k, exists message,
    Server.call_outcome E k Server.end_headers = Server.Raised message.

Lemma bodies_app (l l' : list Server.action) :
  bodies (l ++ l') = (bodies l ++ bodies l')%list.
Proof. apply flat_map_app. Qed.

(** A call that is no write leaves the bodies as they are. *)
Lemma call_no_write (a : Server.action) (p : Server.progress) :
  bodies [a] = [] ->
  bodies (Server.made (fst (Server.call E a p))) = bodies (Server.made p).
Proof.
  intros Ha. unfold Server.call.
  destruct (Server.call_outcome E (Server.attempted p) a); cbn; [|reflexivity].
  rewrite bodies_app, Ha. apply app_nil_r.
Qed.

Lemma call_each_no_write (l : list Server.action) (p : Server.progress) :
  bodies l = [] ->
  bodies (Server.made (fst (Server.call_each E l p))) = bodies (Server.made p).
Proof.
  revert p. induction l as [|a l IH]; intros p Hl; [reflexivity|].
  change (a :: l) with ([a] ++ l)%list in Hl. rewrite bodies_app in Hl.
  apply app_eq_nil in Hl as [Ha Hl].
  cbn [Server.call_each]. pose proof (call_no_write a p Ha) as Hc.
  destruct (Server.call E a p) as [p' [u|message]]; cbn [fst] in *.
  - now rewrite IH.
  - exact Hc.
Qed.

(** The calls of a list that holds [end_headers] do not all return. *)
Lemma call_each_gone (l : list Server.action) (p : Server.progress) :
  In Server.end_headers l ->
  exists message, snd (Server.call_each E l p) = Server.Raised message.
Proof.
  revert p. induction l as [|a l IH]; intros p Hin; [destruct Hin|].
  cbn [Server.call_each].
  destruct (Server.call E a p) as [p' [u|message]] eqn:Hc.
  - destruct Hin as [->|Hin]; [|now apply IH].
    unfold Server.call in Hc.
    destruct (Hgone (Server.attempted p)) as [message Hm].
    rewrite Hm in Hc. discriminate.
  - now exists message.
Qed.

Lemma respond_gone (code : Z) (body : Server.json) (p : Server.progress) :
  (exists message,
     snd (Server.respond E code body p) = Server.Raised message)
  /\ bodies (Server.made (fst (Server.respond E code body p)))
     = bodies (Server.made p).
Proof.
  unfold Server.respond.
  destruct (call_each_gone (Server._set_headers code) p) as [message Hm].
  { cbn. auto 10. }
  pose proof (call_each_no_write (Server._set_headers code) p eq_refl) as Hb.
  destruct (Server.call_each E (Server._set_headers code) p) as [p' o].
  cbn [fst snd] in *. subst o. split; [now exists message|exact Hb].
Qed.

Lemma analyze_gone (post_data : string) (p : Server.progress) :
  (exists message,
     snd (Server.analyze E utcnow post_data p) = Server.Raised message)
  /\ bodies (Server.made (fst (Server.analyze E utcnow post_data p)))
     = bodies (Server.made p).
Proof.
  assert (Htry :
    snd (Server.try_body E utcnow post_data p) <> Server.Completed
    /\ bodies (Server.made (fst (Server.try_body E utcnow post_data p)))
       = bodies (Server.made p)).
  { unfold Server.try_body.
    destruct (Server.json_loads E post_data) as [v| |message];
      [|split; [discriminate|reflexivity]..].
    destruct v as [| b | n | f | s | l | items];
      try (split; [discriminate|reflexivity]).
    cbv zeta.
    destruct (Server.py_format E _) as [text|message];
      [|split; [discriminate|reflexivity]].
    destruct (Server.py_print E _) as [u|message];
      [|split; [discriminate|reflexivity]].
    match goal with
    | |- context [Server.respond E 200 ?body ?q] =>
        destruct (respond_gone 200 body q) as [[message Hm] Hb];
        destruct (Server.respond E 200 body q) as [p' o]
    end.
    cbn [fst snd] in *. subst o. split; [discriminate|].
    cbn [fst]. rewrite Hb. cbn [Server.made]. rewrite bodies_app.
    apply app_nil_r. }
  unfold Server.analyze.
  destruct (Server.try_body E utcnow post_data p) as [p' t].
  cbn [fst snd] in Htry. destruct Htry as [Ht Hb].
  destruct t as [| |message]; [congruence| |].
  - unfold Server.invalid_json.
    match goal with
    | |- context [Server.respond E ?c ?body p'] =>
        destruct (respond_gone c body p') as [Hm Hb']
    end.
    split; [exact Hm|congruence].
  - unfold Server.internal_error.
    match goal with
    | |- context [Server.respond E ?c ?body p'] =>
        destruct (respond_gone c body p') as [Hm Hb']
    end.
    split; [exact Hm|congruence].
Qed.

Lemma finish_gone (r : Server.progress * Server.outcome unit) :
  (exists message, snd r = Server.Raised message) ->
  bodies (Server.made (fst r)) = [] ->
  snd (Server.finish r) <> Server.Returns
  /\ bodies (fst (Server.finish r)) = [].
Proof.
  intros [message Hm] Hb. unfold Server.finish. cbn [fst snd].
  rewrite Hm. split; [discriminate|exact Hb].
Qed.

End ClientGone.

(** X24. When the client has gone, so that [end_headers] raises whenever
    it is called, no handler returns and no body is written, whatever the
    method, the request and the other calls do: the exception leaves the
    handler. In [do_POST] an exception raised while the 200 is sent is
    caught by the [except Exception] clause, whose own answer fails in the
    same way. *)
Theorem client_gone_no_answer (m : method) (E : Server.env)
    (utcnow : datetime) (r : Server.request)
    (Hgone : forall k, exists message,
       Server.call_outcome E k Server.end_headers = Server.Raised message) :
  snd (handle m E utcnow r) <> Server.Returns
  /\ bodies (fst (handle m E utcnow r)) = [].
Proof.
  destruct m; unfold handle.
  - unfold Server.do_OPTIONS. apply finish_gone.
    + apply (call_each_gone E Hgone). cbn. auto 10.
    + now rewrite call_each_no_write.
  - unfold Server.do_GET, Server.not_found.
    destruct (String.eqb (Server.path r) "/api/health");
      match goal with
      | |- context [Server.respond E ?c ?body ?p] =>
          destruct (respond_gone E Hgone c body p) as [Hm Hb]
      end; now apply finish_gone.
  - unfold Server.do_POST, Server.not_found.
    destruct (String.eqb (Server.path r) "/api/analyze").
    + destruct (Server.content_length r) as [header|];
        [|split; [discriminate|reflexivity]].
      destruct (Server.py_int E header) as [size|];
        [|split; [discriminate|reflexivity]].
      destruct (Server.rfile r size) as [post_data| |];
        [|split; [discriminate|reflexivity]..].
      destruct (analyze_gone E utcnow Hgone post_data
                  (Server.start [Server.rfile_read size])) as [Hm Hb].
      now apply finish_gone.
    + match goal with
      | |- context [Server.respond E ?c ?body ?p] =>
          destruct (respond_gone E Hgone c body p) as [Hm Hb]
      end; now apply finish_gone.
Qed.

Lemma client_gone_no_answer_witness :
  snd (handle POST env_client_gone today_example (request_example "{}"))
  <> Server.Returns
  /\ bodies (fst (handle POST env_client_gone today_example
                    (request_example "{}"))) = [].
Proof.
  apply (client_gone_no_answer POST env_client_gone today_example
           (request_example "{}")).
  intros k. eexists. reflexivity.
Defined.
